(** * iheart-mplayer: [parse_iheart_json.py]

    A shallow embedding of the three functions of [parse_iheart_json.py]
    ([station_info], [detect_stream], [get_station_url]) together with the
    statements about them.

    Python values that reach these functions are decoded JSON documents;
    they are modelled by the inductive type [json].  Python dictionaries are
    finite maps ([gmap string json]).  A call either returns a value or
    raises an exception, and may print lines and talk to the network on the
    way: this is the writer-and-error monad [M] below. *)

From Stdlib Require Import ZArith Ascii List Strings.Byte.
From Stdlib Require Import Floats.SpecFloat DecimalString.
From Stdlib Require DecimalPos DecimalZ.
From stdpp Require Import gmap strings list fin_maps.

Set Warnings "-register-all".

(** ** Decoded JSON values *)

(** What [json.loads] can return: [None], [bool], [int], [float], [str],
    [list] and [dict] (with [str] keys). *)
Inductive json : Type :=
  | JNull
  | JBool (b : bool)
  | JInt (n : Z)
  | JFloat (f : spec_float)
  | JStr (s : string)
  | JArr (l : list json)
  | JObj (m : gmap string json).

(** Python truth value testing, as used by [if x:] and [not x]. *)
Definition truthy (v : json) : bool :=
  match v with
  | JNull => false
  | JBool b => b
  | JInt n => negb (Z.eqb n 0)
  | JFloat (S754_zero _) => false
  | JFloat _ => true
  | JStr s => negb (Nat.eqb (String.length s) 0)
  | JArr l => negb (Nat.eqb (List.length l) 0)
  | JObj m => negb (Nat.eqb (size m) 0)
  end.

(** ** Exceptions, effects and the monad *)

Inductive exn : Type :=
  | KeyError (key : string)
  | TypeError
  | UnboundLocalError (name : string)
  | AssertionError
  | RuntimeError (arg : json)
  | LibraryError (name : string).

Inductive result (A : Type) : Type :=
  | Ok (a : A)
  | Raise (e : exn).
Arguments Ok {A} a.
Arguments Raise {A} e.

(** Observable effects of a call, in the order they happen. *)
Inductive event : Type :=
  | EPrint (line : string)
  | EUrlopen (url : string) (data : list byte)
  | EGetHeader (name : string)
  | ERead.

Definition M (A : Type) : Type := (list event * result A)%type.

Definition ret {A} (a : A) : M A := ([], Ok a).
Definition raise {A} (e : exn) : M A := ([], Raise e).
Definition bind {A B} (m : M A) (f : A -> M B) : M B :=
  match m with
  | (t, Ok a) => let '(t', r) := f a in (t ++ t', r)
  | (t, Raise e) => (t, Raise e)
  end.
Definition lift {A} (r : result A) : M A := ([], r).
Definition emit (e : event) : M unit := ([e], Ok tt).
Definition print (line : string) : M unit := emit (EPrint line).

Notation "x <- m ;; k" := (bind m (fun x => k))
  (at level 100, m at next level, right associativity).
Notation "m ;;; k" := (bind m (fun _ => k))
  (at level 100, right associativity).

(** [try: body  except KeyError: handler] *)
Definition try_except_KeyError {A} (body : M A) (handler : M A) : M A :=
  match body with
  | (t, Raise (KeyError _)) => let '(t', r) := handler in (t ++ t', r)
  | other => other
  end.

(** [v[key]] for a [str] key. *)
Definition getitem (v : json) (key : string) : M json :=
  match v with
  | JObj m => match m !! key with
              | Some x => ret x
              | None => raise (KeyError key)
              end
  | _ => raise TypeError
  end.

(** ** Stream selection *)

Definition preference_order : list string :=
  ["shoutcast_stream"; "pls_stream"; "secure_rtmp_stream"; "stw_stream"].

Definition stw_warning : string :=
  "warning: using stw_stream, this stream type is not known to work anywhere".

(** The loop of [detect_stream]:
<<
    for candidate in preference_order:
        try:
            choice = stream_dict[candidate]
            print ("stream type auto: using " + candidate)
            break
        except KeyError:
            pass
    else:
        print ("warning: using stw_stream, ...")
>>
    The value is the binding of the local variable [choice] when the loop is
    left; [None] stands for "still unbound". *)
Fixpoint detect_loop (stream_dict : json) (candidates : list string)
  : M (option json) :=
  match candidates with
  | candidate :: rest =>
      try_except_KeyError
        (choice <- getitem stream_dict candidate ;;
         print ("stream type auto: using " +:+ candidate) ;;;
         ret (Some choice))
        (detect_loop stream_dict rest)
  | [] =>
      print stw_warning ;;;
      ret None
  end.

Definition detect_stream (station : json) : M json :=
  stream_dict <- getitem station "streams" ;;
  choice <- detect_loop stream_dict preference_order ;;
  match choice with
  | Some url => ret url
  | None => raise (UnboundLocalError "choice")
  end.

(** One explicit branch of [get_station_url]:
<<
    if (station['streams'][key]):
        station_url = station['streams'][key]
>>
    with the [print] of the [stw] branch passed as [before]. *)
Definition lookup_branch (station : json) (key : string) (before : M unit)
  : M json :=
  streams <- getitem station "streams" ;;
  v <- getitem streams key ;;
  if truthy v then
    before ;;;
    streams' <- getitem station "streams" ;;
    getitem streams' key
  else ret JNull.

Definition no_such_stream_message : string := "Requested stream does not exist".

Definition get_station_url (station : json) (stream_type : string) : M json :=
  station_url <-
    (if String.eqb stream_type "auto" then detect_stream station
     else if String.eqb stream_type "rtmp" then
       lookup_branch station "secure_rtmp_stream" (ret tt)
     else if String.eqb stream_type "shout" then
       lookup_branch station "shoutcast_stream" (ret tt)
     else if String.eqb stream_type "stw" then
       lookup_branch station "stw_stream" (print stw_warning)
     else if String.eqb stream_type "pls" then
       lookup_branch station "pls_stream" (ret tt)
     else ret JNull) ;;
  if negb (truthy station_url)
  then raise (RuntimeError (JStr no_such_stream_message))
  else ret station_url.


(** ** Strings and [urllib.parse]

    [station_info] builds its request URL with [str] and two calls of
    [urllib.parse.urljoin].  Both belong to the Python runtime, not to the
    program; they are transcribed here from CPython 3 ([Lib/urllib/parse.py])
    for [str] arguments.  Python strings are modelled by [string]s of 8-bit
    characters.  The checks of [urlsplit] that only reject bracketed (IPv6)
    or non-ASCII host names with a [ValueError] are left out. *)

Module Str.

(** [str(n)] for an [int]. *)
Definition str (n : Z) : string := NilZero.string_of_int (Z.to_int n).

Fixpoint all_chars (p : ascii -> bool) (s : string) : bool :=
  match s with
  | EmptyString => true
  | String c r => p c && all_chars p r
  end.

(** [c in s] *)
Fixpoint contains (c : ascii) (s : string) : bool :=
  match s with
  | EmptyString => false
  | String a r => Ascii.eqb a c || contains c r
  end.

(** [s.split(c, 1)] when [c in s]: the text before and after the first [c]. *)
Fixpoint partition (c : ascii) (s : string) : option (string * string) :=
  match s with
  | EmptyString => None
  | String a r =>
      if Ascii.eqb a c then Some (EmptyString, r)
      else match partition c r with
           | Some (before, after) => Some (String a before, after)
           | None => None
           end
  end.

(** The longest prefix without a character in [stop], and the rest. *)
Fixpoint span_until (stop : ascii -> bool) (s : string) : string * string :=
  match s with
  | EmptyString => (EmptyString, EmptyString)
  | String a r =>
      if stop a then (EmptyString, s)
      else let '(before, rest) := span_until stop r in (String a before, rest)
  end.

(** [s.split(sep)] for a one-character separator. *)
Fixpoint split (sep : ascii) (s : string) : list string :=
  match s with
  | EmptyString => [EmptyString]
  | String a r =>
      if Ascii.eqb a sep then EmptyString :: split sep r
      else match split sep r with
           | first :: others => String a first :: others
           | [] => [String a EmptyString]
           end
  end.

(** [sep.join(parts)] *)
Fixpoint join (sep : string) (parts : list string) : string :=
  match parts with
  | [] => EmptyString
  | [p] => p
  | p :: rest => p +:+ sep +:+ join sep rest
  end.

(** [s.lstrip(chars)] with [chars] given as a predicate. *)
Fixpoint lstrip (p : ascii -> bool) (s : string) : string :=
  match s with
  | EmptyString => EmptyString
  | String a r => if p a then lstrip p r else s
  end.

(** [s.rstrip(chars)] and [s.strip(chars)] *)
Fixpoint rstrip (p : ascii -> bool) (s : string) : string :=
  match s with
  | EmptyString => EmptyString
  | String a r =>
      match rstrip p r with
      | EmptyString => if p a then EmptyString else String a EmptyString
      | r' => String a r'
      end
  end.

Definition strip (p : ascii -> bool) (s : string) : string :=
  rstrip p (lstrip p s).

(** Removal of every character satisfying [p] (repeated [s.replace(b, '')]). *)
Fixpoint remove_chars (p : ascii -> bool) (s : string) : string :=
  match s with
  | EmptyString => EmptyString
  | String a r => if p a then remove_chars p r else String a (remove_chars p r)
  end.

Definition code (c : ascii) : N := N_of_ascii c.
Definition between (lo hi : N) (c : ascii) : bool :=
  (lo <=? code c)%N && (code c <=? hi)%N.
Definition is_upper : ascii -> bool := between 65 90.
Definition is_lower : ascii -> bool := between 97 122.
Definition is_digit : ascii -> bool := between 48 57.
Definition is_alpha (c : ascii) : bool := is_upper c || is_lower c.

Definition lower_char (c : ascii) : ascii :=
  if is_upper c then ascii_of_N (code c + 32) else c.
Fixpoint lower (s : string) : string :=
  match s with
  | EmptyString => EmptyString
  | String a r => String (lower_char a) (lower r)
  end.

Definition nonempty (s : string) : bool :=
  match s with EmptyString => false | String _ _ => true end.

(** [s[n:]] *)
Fixpoint drop (n : nat) (s : string) : string :=
  match n, s with
  | S n', String _ r => drop n' r
  | _, _ => s
  end.

(** [s[:1] == '/'] and [s[:2] == '//'] *)
Definition starts_with_slash (s : string) : bool :=
  match s with
  | String a _ => Ascii.eqb a "/"
  | EmptyString => false
  end.

Definition starts_with_two_slashes (s : string) : bool :=
  match s with
  | String a r => Ascii.eqb a "/" && starts_with_slash r
  | EmptyString => false
  end.

Definition mem (s : string) (l : list string) : bool :=
  existsb (String.eqb s) l.

End Str.

Module UrlParse.
Import Str.

Definition uses_relative : list string :=
  [""; "ftp"; "http"; "gopher"; "nntp"; "imap"; "wais"; "file"; "https";
   "shttp"; "mms"; "prospero"; "rtsp"; "rtspu"; "sftp"; "svn"; "svn+ssh";
   "ws"; "wss"].

Definition uses_netloc : list string :=
  [""; "ftp"; "http"; "gopher"; "nntp"; "telnet"; "imap"; "wais"; "file";
   "mms"; "https"; "shttp"; "snews"; "prospero"; "rtsp"; "rtspu"; "rsync";
   "svn"; "svn+ssh"; "sftp"; "nfs"; "git"; "git+ssh"; "ws"; "wss"].

Definition uses_params : list string :=
  [""; "ftp"; "hdl"; "prospero"; "http"; "imap"; "https"; "shttp"; "rtsp";
   "rtspu"; "sip"; "sips"; "mms"; "sftp"; "tel"].

(** [scheme_chars]: letters, digits and [+-.] *)
Definition scheme_char (c : ascii) : bool :=
  is_alpha c || is_digit c
  || Ascii.eqb c "+" || Ascii.eqb c "-" || Ascii.eqb c ".".

(** [_WHATWG_C0_CONTROL_OR_SPACE]: code points 0 to 32. *)
Definition c0_control_or_space (c : ascii) : bool := (code c <=? 32)%N.

(** [_UNSAFE_URL_BYTES_TO_REMOVE]: tab, carriage return, line feed. *)
Definition unsafe_url_byte (c : ascii) : bool :=
  (code c =? 9)%N || (code c =? 13)%N || (code c =? 10)%N.

Definition netloc_delimiter (c : ascii) : bool :=
  Ascii.eqb c "/" || Ascii.eqb c "?" || Ascii.eqb c "#".

Record ParseResult : Type := mkParseResult {
  scheme : string;
  netloc : string;
  path : string;
  params : string;
  query : string;
  fragment : string
}.

(** The scheme step of [urlsplit]: [i = url.find(':')], and the prefix is
    taken as a scheme when [i > 0], the first character is a letter and all
    of [url[:i]] are scheme characters. *)
Definition split_scheme (default : string) (url : string) : string * string :=
  match partition ":" url with
  | Some (String first before, rest) =>
      if is_alpha first && all_chars scheme_char (String first before)
      then (lower (String first before), rest)
      else (default, url)
  | _ => (default, url)
  end.

(** [_splitnetloc(url, 2)] guarded by [url[:2] == '//']. *)
Definition split_netloc (url : string) : string * string :=
  if starts_with_two_slashes url
  then span_until netloc_delimiter (drop 2 url)
  else (EmptyString, url).

Definition split_at (c : ascii) (url : string) : string * string :=
  match partition c url with
  | Some (before, after) => (before, after)
  | None => (url, EmptyString)
  end.

(** [_splitparams]: the [;] looked for is the first one after the last [/]. *)
Fixpoint last_segment_start (acc cur s : string) : string * string :=
  match s with
  | EmptyString => (acc, cur)
  | String a r =>
      if Ascii.eqb a "/"
      then last_segment_start (acc +:+ cur +:+ "/") EmptyString r
      else last_segment_start acc (cur +:+ String a EmptyString) r
  end.

Definition splitparams (url : string) : string * string :=
  let '(dir, last) := last_segment_start EmptyString EmptyString url in
  match partition ";" last with
  | Some (before, after) => (dir +:+ before, after)
  | None => (url, EmptyString)
  end.

Definition urlparse (url : string) (default_scheme : string) : ParseResult :=
  let url := lstrip c0_control_or_space url in
  let default_scheme :=
    remove_chars unsafe_url_byte
      (strip c0_control_or_space default_scheme) in
  let url := remove_chars unsafe_url_byte url in
  let '(scheme, url) := split_scheme default_scheme url in
  let '(netloc, url) := split_netloc url in
  let '(url, fragment) := split_at "#" url in
  let '(url, query) := split_at "?" url in
  let '(url, params) :=
    if mem scheme uses_params && contains ";" url
    then splitparams url else (url, EmptyString) in
  mkParseResult scheme netloc url params query fragment.

Definition urlunparse (r : ParseResult) : string :=
  let url :=
    if nonempty (params r) then path r +:+ ";" +:+ params r else path r in
  let url :=
    if nonempty (netloc r)
       || (nonempty (scheme r) && mem (scheme r) uses_netloc
           && negb (starts_with_two_slashes url))
    then
      let url :=
        if nonempty url && negb (starts_with_slash url)
        then "/" +:+ url else url in
      "//" +:+ netloc r +:+ url
    else url in
  let url := if nonempty (scheme r) then scheme r +:+ ":" +:+ url else url in
  let url := if nonempty (query r) then url +:+ "?" +:+ query r else url in
  if nonempty (fragment r) then url +:+ "#" +:+ fragment r else url.

(** [segments[1:-1] = filter(None, segments[1:-1])] *)
Definition filter_inner (segments : list string) : list string :=
  match segments with
  | first :: (_ :: _) as rest =>
      first :: List.filter nonempty (removelast rest)
        ++ [List.last rest EmptyString]
  | _ => segments
  end.

(** The loop over [segments] that builds [resolved_path]. *)
Fixpoint resolve (resolved_path : list string) (segments : list string)
  : list string :=
  match segments with
  | [] => resolved_path
  | seg :: rest =>
      if String.eqb seg ".." then resolve (removelast resolved_path) rest
      else if String.eqb seg "." then resolve resolved_path rest
      else resolve (resolved_path ++ [seg]) rest
  end.

Definition urljoin (base url : string) : string :=
  if negb (nonempty base) then url
  else if negb (nonempty url) then base
  else
    let b := urlparse base EmptyString in
    let u := urlparse url (scheme b) in
    if negb (String.eqb (scheme u) (scheme b))
       || negb (mem (scheme u) uses_relative)
    then url
    else if mem (scheme u) uses_netloc && nonempty (netloc u)
    then urlunparse u
    else
      let netloc' := if mem (scheme u) uses_netloc then netloc b else netloc u in
      if negb (nonempty (path u)) && negb (nonempty (params u))
      then
        urlunparse
          (mkParseResult (scheme u) netloc' (path b) (params b)
             (if nonempty (query u) then query u else query b)
             (fragment u))
      else
        let base_parts := split "/" (path b) in
        let base_parts :=
          if nonempty (List.last base_parts EmptyString)
          then removelast base_parts else base_parts in
        let segments :=
          if starts_with_slash (path u) then split "/" (path u)
          else filter_inner (base_parts ++ split "/" (path u)) in
        let resolved_path := resolve [] segments in
        let resolved_path :=
          if mem (List.last segments EmptyString) ["."; ".."]
          then resolved_path ++ [EmptyString] else resolved_path in
        let joined := join "/" resolved_path in
        urlunparse
          (mkParseResult (scheme u) netloc'
             (if nonempty joined then joined else "/")
             (params u) (query u) (fragment u)).

End UrlParse.

(** ** Station lookup *)

(** The object returned by [urllib.request.urlopen]: what
    [response.getheader(name)] and [response.read()] give. *)
Record HTTPResponse : Type := mkHTTPResponse {
  getheader : string -> option string;
  read : result (list byte)
}.

Definition iheart_base_url : string := "http://www.iheart.com/a/live/station/".
Definition iheart_url_postfix : string := "stream/".

(** The two [urljoin] calls of [station_info]. *)
Definition iheart_url (station_id : Z) : string :=
  let iheart_url :=
    UrlParse.urljoin iheart_base_url (Str.str station_id +:+ "/") in
  UrlParse.urljoin iheart_url iheart_url_postfix.

(** ['1'.encode('utf-8')] *)
Definition request_body : list byte := [x31].

Definition json_content_type : string := "application/json; charset=utf-8".

(** [h == 'application/json; charset=utf-8'] where [h] is [None] or a [str]. *)
Definition is_json_content_type (h : option string) : bool :=
  match h with
  | Some s => String.eqb s json_content_type
  | None => false
  end.

Section StationInfo.

(** The world outside the program: the network, and the two decoders of
    the Python library.  Each may raise. *)
Variable urlopen : string -> list byte -> result HTTPResponse.
Variable decode_utf8 : list byte -> result string.
Variable json_loads : string -> result json.

(** The call of [urlopen], of [getheader] and of [read] are logged as
    events, in program order, before their outcome is used. *)
Definition station_info (station_id : Z) : M json :=
  let url := iheart_url station_id in
  emit (EUrlopen url request_body) ;;;
  response <- lift (urlopen url request_body) ;;
  emit (EGetHeader "Content-Type") ;;;
  (if is_json_content_type (getheader response "Content-Type")
   then ret tt else raise AssertionError) ;;;
  emit ERead ;;;
  raw <- lift (read response) ;;
  text <- lift (decode_utf8 raw) ;;
  station <- lift (json_loads text) ;;
  ok <- getitem station "ok" ;;
  if negb (truthy ok) then
    error <- getitem station "error" ;;
    raise (RuntimeError error)
  else ret station.

End StationInfo.

(** ** The error kinds of the specification *)

(** "no such stream": the [RuntimeError] of [get_station_url]. *)
Definition no_such_stream (e : exn) : Prop :=
  e = RuntimeError (JStr no_such_stream_message).

(** "station error" carrying [msg]: the [RuntimeError] of [station_info]. *)
Definition station_error (msg : json) (e : exn) : Prop :=
  e = RuntimeError msg.

(** "unexpected response format": the failed [assert] of [station_info]. *)
Definition unexpected_response_format (e : exn) : Prop :=
  e = AssertionError.

(** The lines printed by a call, and how often the [stw] warning is among
    them. *)
Definition printed (t : list event) : list string :=
  omap (fun e => match e with EPrint l => Some l | _ => None end) t.

Definition warnings (t : list event) : nat :=
  List.length (List.filter (String.eqb stw_warning) (printed t)).

(** ** Predicates used in the statements *)

(** The characters of [str(n)]: digits and the minus sign. *)
Definition int_char (c : ascii) : bool :=
  Str.is_digit c || Ascii.eqb c "-".

(** A non-empty string of such characters. *)
Definition int_text (d : string) : Prop :=
  Str.all_chars int_char d = true /\ Str.nonempty d = true.

(** ** Sample inputs *)

Definition streams_shout_rtmp : gmap string json :=
  <["shoutcast_stream" := JStr "http://shout.example/live"]>
    {["secure_rtmp_stream" := JStr "rtmp://rtmp.example/live"]}.

Definition streams_stw_only : gmap string json :=
  {["stw_stream" := JStr "http://stw.example/live"]}.

Definition streams_empty_shout : gmap string json :=
  {["shoutcast_stream" := JStr ""]}.

(** A record [{"ok": true, "streams": ...}]. *)
Definition record_with (streams : gmap string json) : gmap string json :=
  <["ok" := JBool true]> {["streams" := JObj streams]}.

(** [{"ok": false, "error": "bad id"}] *)
Definition record_bad_id : gmap string json :=
  <["ok" := JBool false]> {["error" := JStr "bad id"]}.

(** A network that answers every request with the given content type and
    body, and decoders that accept one body and yield the given record. *)
Definition sample_response (content_type : string) : HTTPResponse :=
  mkHTTPResponse
    (fun name => if String.eqb name "Content-Type" then Some content_type
                 else None)
    (Ok [x7b; x7d]).

Definition sample_urlopen (content_type : string)
  : string -> list byte -> result HTTPResponse :=
  fun _ _ => Ok (sample_response content_type).

Definition sample_decode_utf8 : list byte -> result string :=
  fun raw => Ok (String.string_of_list_byte raw).

Definition sample_json_loads (record : gmap string json)
  : string -> result json :=
  fun _ => Ok (JObj record).

(** ** Further vocabulary and sample inputs *)

(** The explicit stream types of [get_station_url] and the key each one
    reads in [streams]. *)
Definition explicit_formats : list (string * string) :=
  [("rtmp", "secure_rtmp_stream"); ("shout", "shoutcast_stream");
   ("stw", "stw_stream"); ("pls", "pls_stream")].

(** The stream types [get_station_url] has a branch for. *)
Definition known_types : list string :=
  ["auto"; "rtmp"; "shout"; "stw"; "pls"].

(** What the branch of an explicit type prints on its way to a URL. *)
Definition explicit_output (tag : string) : list event :=
  if String.eqb tag "stw" then [EPrint stw_warning] else [].

(** A value that is not a [dict]. *)
Definition not_a_dict (v : json) : Prop := forall m, v <> JObj m.

(** The last statement of [get_station_url], and the [print] of each
    explicit branch; [get_station_url] is a branch followed by
    [final_check] (lemmas [get_station_url_auto] and
    [get_station_url_explicit] below). *)
Definition final_check (station_url : json) : M json :=
  if negb (truthy station_url)
  then raise (RuntimeError (JStr no_such_stream_message))
  else ret station_url.

Definition branch_print (tag : string) : M unit :=
  if String.eqb tag "stw" then print stw_warning else ret tt.

(** The statements of [station_info] that follow [json.loads]:
<<
    if (not station['ok']):
        raise RuntimeError(station['error'])
    else:
        return station
>>
    ([station_info] is the fetch followed by [check_ok], lemma
    [station_info_cases] below.) *)
Definition check_ok (station : json) : M json :=
  ok <- getitem station "ok" ;;
  if negb (truthy ok) then
    error <- getitem station "error" ;;
    raise (RuntimeError error)
  else ret station.

(** The three calls [station_info] can log, in order. *)
Definition lookup_events (station_id : Z) : list event :=
  [EUrlopen (iheart_url station_id) request_body;
   EGetHeader "Content-Type"; ERead].

(** [streams] with every key but [shoutcast_stream]. *)
Definition streams_pls_rtmp_stw : gmap string json :=
  <["pls_stream" := JStr "http://pls.example/live.pls"]>
    (<["secure_rtmp_stream" := JStr "rtmp://rtmp.example/live"]>
       {["stw_stream" := JStr "http://stw.example/live"]}).

(** [{"shoutcast_stream": "", "pls_stream": "http://pls.example/live.pls"}] *)
Definition streams_empty_shout_pls : gmap string json :=
  <["shoutcast_stream" := JStr ""]>
    {["pls_stream" := JStr "http://pls.example/live.pls"]}.

(** [streams_stw_only] with a key the program does not know. *)
Definition streams_stw_hls : gmap string json :=
  <["hls_stream" := JStr "http://hls.example/live.m3u8"]> streams_stw_only.

(** [{"ok": false, "stream_urls": {}, "streams": ...}] *)
Definition record_not_ok_with (streams : gmap string json)
  : gmap string json :=
  <["ok" := JBool false]>
    (<["stream_urls" := JObj ∅]> {["streams" := JObj streams]}).

(** [{"ok": true, "streams": null}] *)
Definition record_null_streams : gmap string json :=
  <["ok" := JBool true]> {["streams" := JNull]}.

(** [{"ok": 0, "error": "bad id"}] and [{"ok": 1}] *)
Definition record_zero_ok : gmap string json :=
  <["ok" := JInt 0]> {["error" := JStr "bad id"]}.

Definition record_one_ok : gmap string json := {["ok" := JInt 1]}.

(** [{"error": "bad id"}] *)
Definition record_no_ok : gmap string json := {["error" := JStr "bad id"]}.

(** A network that refuses every request, and a response whose body
    cannot be read. *)
Definition refusing_urlopen : string -> list byte -> result HTTPResponse :=
  fun _ _ => Raise (LibraryError "URLError").

Definition sample_json_loads_value (v : json) : string -> result json :=
  fun _ => Ok v.

(** ** Stream selection: properties *)

Section Selection.

Implicit Types (top m : gmap string json) (v : json).

Lemma bind_ret_l {A B} (a : A) (f : A -> M B) : bind (ret a) f = f a.
Proof. unfold bind, ret. destruct (f a) as [t r]. reflexivity. Qed.

Lemma getitem_present m key v :
  m !! key = Some v -> getitem (JObj m) key = ret v.
Proof. intros H. unfold getitem. rewrite H. reflexivity. Qed.

Lemma getitem_absent m key :
  m !! key = None -> getitem (JObj m) key = raise (KeyError key).
Proof. intros H. unfold getitem. rewrite H. reflexivity. Qed.

(** The loop stops at the first candidate that is a key of the mapping. *)
Lemma detect_loop_first m before k after v :
  Forall (fun k' => m !! k' = None) before ->
  m !! k = Some v ->
  detect_loop (JObj m) (before ++ k :: after)
  = ([EPrint ("stream type auto: using " +:+ k)], Ok (Some v)).
Proof.
  intros Habs Hk. induction Habs as [|k' before Hk' _ IH]; cbn [app detect_loop].
  - rewrite (getitem_present _ _ _ Hk). reflexivity.
  - rewrite (getitem_absent _ _ Hk'), IH. reflexivity.
Qed.

(** With no candidate among the keys the loop runs into its [else]. *)
Lemma detect_loop_exhausted m candidates :
  Forall (fun k' => m !! k' = None) candidates ->
  detect_loop (JObj m) candidates = ([EPrint stw_warning], Ok None).
Proof.
  intros Habs. induction Habs as [|k' rest Hk' _ IH]; cbn [detect_loop].
  - reflexivity.
  - rewrite (getitem_absent _ _ Hk'), IH. reflexivity.
Qed.

(** Among candidates of which one is a key, there is a first such. *)
Lemma first_present m candidates :
  Exists (fun k => is_Some (m !! k)) candidates ->
  exists before k after v,
    candidates = before ++ k :: after
    /\ Forall (fun k' => m !! k' = None) before
    /\ m !! k = Some v.
Proof.
  induction candidates as [|c rest IH]; intros Hex.
  - inversion Hex.
  - destruct (m !! c) as [v|] eqn:Hc.
    + exists [], c, rest, v. repeat split; [constructor | exact Hc].
    + destruct IH as (before & k & after & v & -> & Habs & Hk).
      { inversion Hex as [? ? [x Hx]|]; subst; [congruence | assumption]. }
      exists (c :: before), k, after, v.
      repeat split; [constructor; assumption | exact Hk].
Qed.

Lemma detect_stream_found top m before k after v :
  top !! "streams" = Some (JObj m) ->
  preference_order = before ++ k :: after ->
  Forall (fun k' => m !! k' = None) before ->
  m !! k = Some v ->
  detect_stream (JObj top)
  = ([EPrint ("stream type auto: using " +:+ k)], Ok v).
Proof.
  intros Hs Hp Habs Hk. unfold detect_stream.
  rewrite (getitem_present _ _ _ Hs), bind_ret_l, Hp.
  rewrite (detect_loop_first _ _ _ _ _ Habs Hk). reflexivity.
Qed.

Lemma detect_stream_exhausted top m :
  top !! "streams" = Some (JObj m) ->
  Forall (fun k' => m !! k' = None) preference_order ->
  detect_stream (JObj top)
  = ([EPrint stw_warning], Raise (UnboundLocalError "choice")).
Proof.
  intros Hs Habs. unfold detect_stream.
  rewrite (getitem_present _ _ _ Hs), bind_ret_l.
  rewrite (detect_loop_exhausted _ _ Habs). reflexivity.
Qed.

(** The last statement of [get_station_url] on a truthy and on a falsy
    [station_url]. *)
Lemma auto_truthy station t v :
  detect_stream station = (t, Ok v) -> truthy v = true ->
  get_station_url station "auto" = (t, Ok v).
Proof.
  intros Hd Hv. unfold get_station_url. simpl. rewrite Hd. simpl.
  rewrite Hv. simpl. rewrite app_nil_r. reflexivity.
Qed.

Lemma lookup_branch_absent top m key before :
  top !! "streams" = Some (JObj m) -> m !! key = None ->
  lookup_branch (JObj top) key before = ([], Raise (KeyError key)).
Proof.
  intros Hs Hk. unfold lookup_branch.
  rewrite (getitem_present _ _ _ Hs), bind_ret_l.
  rewrite (getitem_absent _ _ Hk). reflexivity.
Qed.

Lemma lookup_branch_falsy top m key v before :
  top !! "streams" = Some (JObj m) -> m !! key = Some v ->
  truthy v = false ->
  lookup_branch (JObj top) key before = ([], Ok JNull).
Proof.
  intros Hs Hk Hv. unfold lookup_branch.
  rewrite (getitem_present _ _ _ Hs), bind_ret_l.
  rewrite (getitem_present _ _ _ Hk), bind_ret_l, Hv. reflexivity.
Qed.

Lemma lookup_branch_truthy top m key v before :
  top !! "streams" = Some (JObj m) -> m !! key = Some v ->
  truthy v = true ->
  lookup_branch (JObj top) key before = (before ;;; ret v).
Proof.
  intros Hs Hk Hv. unfold lookup_branch.
  rewrite (getitem_present _ _ _ Hs), bind_ret_l.
  rewrite (getitem_present _ _ _ Hk), bind_ret_l, Hv.
  rewrite !bind_ret_l, (getitem_present _ _ _ Hk). reflexivity.
Qed.

End Selection.

(** C1. For a record whose [streams] mapping has at least one of the four
    keys, automatic selection returns the value of the first key of the
    list [shoutcast_stream, pls_stream, secure_rtmp_stream, stw_stream]
    that is present: [detect_stream] returns it whatever it is, and
    [get_station_url] with ["auto"] hands it on when it is a non-empty
    (truthy) value.  Key by key: [shoutcast_stream] wins when present;
    [pls_stream] when [shoutcast_stream] is absent; [secure_rtmp_stream]
    when both are absent; [stw_stream] when all three are absent.  In
    particular a record with both [shoutcast_stream] and
    [secure_rtmp_stream] yields the [shoutcast_stream] value. *)
Theorem auto_returns_first_present (top m : gmap string json) :
  top !! "streams" = Some (JObj m) ->
  Exists (fun k => is_Some (m !! k))
    ["shoutcast_stream"; "pls_stream"; "secure_rtmp_stream"; "stw_stream"] ->
  (exists before k after v,
     ["shoutcast_stream"; "pls_stream"; "secure_rtmp_stream"; "stw_stream"]
     = before ++ k :: after
     /\ Forall (fun k' => m !! k' = None) before
     /\ m !! k = Some v
     /\ detect_stream (JObj top)
        = ([EPrint ("stream type auto: using " +:+ k)], Ok v)
     /\ (truthy v = true ->
         get_station_url (JObj top) "auto"
         = ([EPrint ("stream type auto: using " +:+ k)], Ok v)))
  /\ (forall shout rtmp,
        m !! "shoutcast_stream" = Some shout ->
        m !! "secure_rtmp_stream" = Some rtmp ->
        detect_stream (JObj top)
        = ([EPrint "stream type auto: using shoutcast_stream"], Ok shout))
  /\ (forall v,
        m !! "shoutcast_stream" = Some v ->
        detect_stream (JObj top)
        = ([EPrint "stream type auto: using shoutcast_stream"], Ok v))
  /\ (forall v,
        m !! "shoutcast_stream" = None ->
        m !! "pls_stream" = Some v ->
        detect_stream (JObj top)
        = ([EPrint "stream type auto: using pls_stream"], Ok v))
  /\ (forall v,
        m !! "shoutcast_stream" = None ->
        m !! "pls_stream" = None ->
        m !! "secure_rtmp_stream" = Some v ->
        detect_stream (JObj top)
        = ([EPrint "stream type auto: using secure_rtmp_stream"], Ok v))
  /\ (forall v,
        m !! "shoutcast_stream" = None ->
        m !! "pls_stream" = None ->
        m !! "secure_rtmp_stream" = None ->
        m !! "stw_stream" = Some v ->
        detect_stream (JObj top)
        = ([EPrint "stream type auto: using stw_stream"], Ok v)).
Proof.
  intros Hs Hsome.
  assert (Hat : forall before k after v,
            ["shoutcast_stream"; "pls_stream"; "secure_rtmp_stream";
             "stw_stream"] = before ++ k :: after ->
            Forall (fun k' => m !! k' = None) before ->
            m !! k = Some v ->
            detect_stream (JObj top)
            = ([EPrint ("stream type auto: using " +:+ k)], Ok v)).
  { intros before k after v Hp Habs Hk.
    exact (detect_stream_found _ _ _ _ _ _ Hs Hp Habs Hk). }
  split; [|split; [|split; [|split; [|split]]]].
  - destruct (first_present _ _ Hsome)
      as (before & k & after & v & Hp & Habs & Hk).
    pose proof (Hat _ _ _ _ Hp Habs Hk) as Hd.
    exists before, k, after, v. repeat split; try assumption.
    intros Hv. exact (auto_truthy _ _ _ Hd Hv).
  - intros shout rtmp Hshout _.
    exact (Hat [] "shoutcast_stream" _ shout eq_refl ltac:(constructor) Hshout).
  - intros v H1.
    exact (Hat [] "shoutcast_stream" _ v eq_refl ltac:(constructor) H1).
  - intros v H1 H2.
    apply (Hat ["shoutcast_stream"] "pls_stream" _ v eq_refl);
      [repeat constructor; assumption | exact H2].
  - intros v H1 H2 H3.
    apply (Hat ["shoutcast_stream"; "pls_stream"] "secure_rtmp_stream" _ v
             eq_refl); [repeat constructor; assumption | exact H3].
  - intros v H1 H2 H3 H4.
    apply (Hat ["shoutcast_stream"; "pls_stream"; "secure_rtmp_stream"]
             "stw_stream" _ v eq_refl);
      [repeat constructor; assumption | exact H4].
Qed.

Lemma auto_returns_first_present_witness :
  detect_stream (JObj (record_with streams_shout_rtmp))
  = ([EPrint "stream type auto: using shoutcast_stream"],
     Ok (JStr "http://shout.example/live"))
  /\ detect_stream (JObj (record_with streams_pls_rtmp_stw))
     = ([EPrint "stream type auto: using pls_stream"],
        Ok (JStr "http://pls.example/live.pls")).
Proof.
  split.
  - destruct (auto_returns_first_present (record_with streams_shout_rtmp)
                streams_shout_rtmp) as (_ & Hboth & _).
    + vm_compute. reflexivity.
    + apply Exists_cons_hd. vm_compute. eauto.
    + apply (Hboth (JStr "http://shout.example/live")
               (JStr "rtmp://rtmp.example/live")); vm_compute; reflexivity.
  - destruct (auto_returns_first_present (record_with streams_pls_rtmp_stw)
                streams_pls_rtmp_stw) as (_ & _ & _ & Hpls & _).
    + vm_compute. reflexivity.
    + apply Exists_cons_tl, Exists_cons_hd. vm_compute. eauto.
    + apply (Hpls (JStr "http://pls.example/live.pls"));
        vm_compute; reflexivity.
Defined.

(** C2. For a record whose [streams] mapping holds only [stw_stream],
    automatic selection returns that value, but the only line printed is
    ["stream type auto: using stw_stream"]: the [stw] warning sits in the
    [else] of the loop, which a [break] skips, so it is not printed. *)
Theorem auto_stw_only_prints_no_warning (top : gmap string json) (v : json) :
  top !! "streams" = Some (JObj {["stw_stream" := v]}) ->
  detect_stream (JObj top)
  = ([EPrint "stream type auto: using stw_stream"], Ok v)
  /\ warnings (fst (detect_stream (JObj top))) = 0.
Proof.
  intros Hs.
  assert (Hd : detect_stream (JObj top)
               = ([EPrint "stream type auto: using stw_stream"], Ok v)).
  { apply (detect_stream_found top {["stw_stream" := v]}
             ["shoutcast_stream"; "pls_stream"; "secure_rtmp_stream"]
             "stw_stream" [] v); [exact Hs | reflexivity | |].
    - repeat constructor; apply lookup_singleton_ne; discriminate.
    - apply lookup_singleton_eq. }
  split; [exact Hd|]. rewrite Hd. reflexivity.
Qed.

Lemma auto_stw_only_prints_no_warning_witness :
  detect_stream (JObj (record_with streams_stw_only))
  = ([EPrint "stream type auto: using stw_stream"],
     Ok (JStr "http://stw.example/live"))
  /\ warnings (fst (detect_stream (JObj (record_with streams_stw_only)))) = 0.
Proof.
  apply (auto_stw_only_prints_no_warning (record_with streams_stw_only)
           (JStr "http://stw.example/live")).
  vm_compute. reflexivity.
Defined.

(** C3. For a record whose [streams] mapping has none of the four keys (for
    instance the empty mapping), automatic selection prints the [stw]
    warning and then fails at [return choice] with [UnboundLocalError],
    which is not the "no such stream" error; [get_station_url] lets it
    through. *)
Theorem auto_without_streams_unbound (top m : gmap string json) :
  top !! "streams" = Some (JObj m) ->
  Forall (fun k' => m !! k' = None) preference_order ->
  detect_stream (JObj top)
  = ([EPrint stw_warning], Raise (UnboundLocalError "choice"))
  /\ get_station_url (JObj top) "auto"
     = ([EPrint stw_warning], Raise (UnboundLocalError "choice"))
  /\ ~ no_such_stream (UnboundLocalError "choice").
Proof.
  intros Hs Habs.
  pose proof (detect_stream_exhausted _ _ Hs Habs) as Hd.
  split; [exact Hd|]. split.
  - unfold get_station_url. simpl. rewrite Hd. reflexivity.
  - unfold no_such_stream. discriminate.
Qed.

Lemma auto_without_streams_unbound_witness :
  get_station_url (JObj (record_with ∅)) "auto"
  = ([EPrint stw_warning], Raise (UnboundLocalError "choice")).
Proof.
  destruct (auto_without_streams_unbound (record_with ∅) ∅)
    as (_ & Hauto & _).
  - vm_compute. reflexivity.
  - repeat constructor.
  - exact Hauto.
Defined.

(** C4 (as stated, refuted). It is not the case that ["shout"] on a record
    without [shoutcast_stream] always fails with the "no such stream"
    error: the subscript raises [KeyError], which nothing catches. *)
Lemma shout_absent_not_no_such_stream :
  ~ (forall top m : gmap string json,
       top !! "streams" = Some (JObj m) ->
       m !! "shoutcast_stream" = None ->
       exists t e, get_station_url (JObj top) "shout" = (t, Raise e)
                   /\ no_such_stream e).
Proof.
  intros H.
  destruct (H (record_with ∅) ∅) as (t & e & Hrun & Hkind);
    [vm_compute; reflexivity | reflexivity |].
  vm_compute in Hrun. unfold no_such_stream in Hkind.
  subst e. discriminate Hrun.
Qed.

(** C4 (amended). For a record whose [streams] mapping lacks
    [shoutcast_stream], [get_station_url] with ["shout"] prints nothing and
    fails with the [KeyError] of the missing key, as its docstring
    announces. *)
Theorem shout_absent_key_error (top m : gmap string json) :
  top !! "streams" = Some (JObj m) ->
  m !! "shoutcast_stream" = None ->
  get_station_url (JObj top) "shout"
  = ([], Raise (KeyError "shoutcast_stream")).
Proof.
  intros Hs Hk. unfold get_station_url. simpl.
  rewrite (lookup_branch_absent _ _ _ _ Hs Hk). reflexivity.
Qed.

Lemma shout_absent_key_error_witness :
  get_station_url (JObj (record_with streams_stw_only)) "shout"
  = ([], Raise (KeyError "shoutcast_stream")).
Proof.
  apply (shout_absent_key_error (record_with streams_stw_only)
           streams_stw_only).
  - vm_compute. reflexivity.
  - vm_compute. reflexivity.
Defined.

(** C5 (as stated, refuted). ["stw"] does not print the warning on every
    call: on a record without [stw_stream] nothing is printed. *)
Lemma stw_warning_not_always :
  ~ (forall station : json,
       warnings (fst (get_station_url station "stw")) = 1).
Proof.
  intros H. specialize (H (JObj (record_with ∅))).
  vm_compute in H. discriminate H.
Qed.

(** C5 (amended). A call of [get_station_url] with ["stw"] prints the [stw]
    warning exactly once when it returns a URL, and not at all when it
    fails. *)
Theorem stw_warning_iff_success (station : json) :
  match snd (get_station_url station "stw") with
  | Ok _ => warnings (fst (get_station_url station "stw")) = 1
  | Raise _ => warnings (fst (get_station_url station "stw")) = 0
  end.
Proof.
  unfold get_station_url. simpl. unfold lookup_branch.
  destruct station as [| | | | | |top]; try reflexivity.
  cbn [getitem]. destruct (top !! "streams") as [streams|] eqn:Hs;
    [rewrite !bind_ret_l | reflexivity].
  destruct streams as [| | | | | |m]; try reflexivity.
  cbn [getitem]. destruct (m !! "stw_stream") as [v|] eqn:Hv;
    [rewrite !bind_ret_l | reflexivity].
  destruct (truthy v) eqn:Ht; [|reflexivity].
  simpl. rewrite Ht. reflexivity.
Qed.

(** C6. For each explicit format tag, when the mapped key is present in
    [streams] with a falsy value, [get_station_url] prints nothing and
    fails with the "no such stream" error. *)
Theorem explicit_falsy_no_such_stream
    (top m : gmap string json) (tag key : string) (v : json) :
  In (tag, key) [("rtmp", "secure_rtmp_stream"); ("shout", "shoutcast_stream");
                 ("stw", "stw_stream"); ("pls", "pls_stream")] ->
  top !! "streams" = Some (JObj m) ->
  m !! key = Some v ->
  truthy v = false ->
  exists e, get_station_url (JObj top) tag = ([], Raise e)
            /\ no_such_stream e.
Proof.
  intros Hin Hs Hk Hv. eexists. split; [|reflexivity].
  simpl in Hin.
  destruct Hin as [H|[H|[H|[H|[]]]]]; injection H as <- <-;
    unfold get_station_url; simpl;
    rewrite (lookup_branch_falsy _ _ _ _ _ Hs Hk Hv); reflexivity.
Qed.

Lemma explicit_falsy_no_such_stream_witness :
  exists e,
    get_station_url (JObj (record_with streams_empty_shout)) "shout"
    = ([], Raise e) /\ no_such_stream e.
Proof.
  apply (explicit_falsy_no_such_stream (record_with streams_empty_shout)
           streams_empty_shout "shout" "shoutcast_stream" (JStr "")).
  - simpl. right. left. reflexivity.
  - vm_compute. reflexivity.
  - vm_compute. reflexivity.
  - reflexivity.
Defined.

(** C10. For a stream type other than [auto], [rtmp], [shout], [stw] and
    [pls], [get_station_url] never looks at the record: it prints nothing
    and fails with [RuntimeError("Requested stream does not exist")]. *)
Theorem unknown_type_no_such_stream (station : json) (stream_type : string) :
  ~ In stream_type ["auto"; "rtmp"; "shout"; "stw"; "pls"] ->
  get_station_url station stream_type
  = ([], Raise (RuntimeError (JStr "Requested stream does not exist")))
  /\ no_such_stream (RuntimeError (JStr "Requested stream does not exist")).
Proof.
  intros Hnot. split; [|reflexivity].
  unfold get_station_url.
  assert (Hne : forall t, In t ["auto"; "rtmp"; "shout"; "stw"; "pls"] ->
                          String.eqb stream_type t = false).
  { intros t Ht. apply String.eqb_neq. intros ->. exact (Hnot Ht). }
  rewrite !Hne by (simpl; tauto). reflexivity.
Qed.

Lemma unknown_type_no_such_stream_witness :
  get_station_url (JObj (record_with streams_shout_rtmp)) "http"
  = ([], Raise (RuntimeError (JStr "Requested stream does not exist"))).
Proof.
  apply (unknown_type_no_such_stream (JObj (record_with streams_shout_rtmp))
           "http").
  simpl. intros [H|[H|[H|[H|[H|[]]]]]]; discriminate H.
Defined.

(** ** The request URL: properties *)

Module UrlFacts.
Import Str UrlParse.

Lemma int_char_facts c :
  int_char c = true ->
  c0_control_or_space c = false /\ unsafe_url_byte c = false
  /\ Ascii.eqb c ":" = false /\ Ascii.eqb c "/" = false
  /\ Ascii.eqb c "#" = false /\ Ascii.eqb c "?" = false
  /\ Ascii.eqb c ";" = false /\ Ascii.eqb c "." = false.
Proof.
  destruct c as [[] [] [] [] [] [] [] []]; vm_compute; intros H;
    try discriminate H; repeat split.
Qed.

Lemma uint_chars (u : Decimal.uint) :
  all_chars int_char (NilEmpty.string_of_uint u) = true.
Proof. induction u; simpl; auto. Qed.

Lemma str_int_text (n : Z) : int_text (str n).
Proof.
  unfold int_text, str.
  destruct (Z.to_int n) as [u|u]; simpl.
  - destruct u; simpl; split; try reflexivity; apply uint_chars.
  - split; [|reflexivity]. destruct u; simpl; try reflexivity; apply uint_chars.
Qed.

Lemma text_absent d c :
  all_chars int_char d = true ->
  In c [":"; "/"; "#"; "?"; ";"; "."]%char -> contains c d = false.
Proof.
  intros Hchars Hc. induction d as [|a r IH]; simpl in *; [reflexivity|].
  apply andb_prop in Hchars as [Ha Hr]. rewrite (IH Hr), orb_false_r.
  destruct (int_char_facts a Ha) as (_ & _ & F3 & F4 & F5 & F6 & F7 & F8).
  destruct Hc as [<-|[<-|[<-|[<-|[<-|[<-|[]]]]]]]; assumption.
Qed.

Lemma text_remove_unsafe d r :
  all_chars int_char d = true ->
  remove_chars unsafe_url_byte (d +:+ r)
  = d +:+ remove_chars unsafe_url_byte r.
Proof.
  intros Hchars. induction d as [|a s IH]; simpl in *; [reflexivity|].
  apply andb_prop in Hchars as [Ha Hs].
  destruct (int_char_facts a Ha) as (_ & -> & _). rewrite (IH Hs). reflexivity.
Qed.

(** What the first character of an [int_text] tells. *)
Lemma text_head d :
  int_text d ->
  exists a s, d = String a s /\ int_char a = true.
Proof.
  intros [Hc Hn]. destruct d as [|a s]; [discriminate Hn|].
  simpl in Hc. apply andb_prop in Hc as [Ha _]. eauto.
Qed.

Lemma text_lstrip d r :
  int_text d -> lstrip c0_control_or_space (d +:+ r) = d +:+ r.
Proof.
  intros (a & s & -> & Ha)%text_head. simpl.
  destruct (int_char_facts a Ha) as (-> & _). reflexivity.
Qed.

Lemma text_not_slash d r : int_text d -> starts_with_slash (d +:+ r) = false.
Proof.
  intros (a & s & -> & Ha)%text_head. simpl.
  destruct (int_char_facts a Ha) as (_ & _ & _ & -> & _). reflexivity.
Qed.

Lemma text_nonempty d r : int_text d -> nonempty (d +:+ r) = true.
Proof. intros (a & s & -> & _)%text_head. reflexivity. Qed.

Lemma text_not_dots d :
  int_text d -> String.eqb d ".." = false /\ String.eqb d "." = false.
Proof.
  intros (a & s & -> & Ha)%text_head. simpl.
  destruct (int_char_facts a Ha) as (_ & _ & _ & _ & _ & _ & _ & ->).
  split; reflexivity.
Qed.

Lemma contains_append c s r :
  contains c (s +:+ r) = contains c s || contains c r.
Proof.
  induction s as [|a s IH]; simpl; [reflexivity|].
  rewrite IH, orb_assoc. reflexivity.
Qed.

Lemma partition_absent c s : contains c s = false -> partition c s = None.
Proof.
  induction s as [|a s IH]; simpl; [reflexivity|].
  intros [-> Hs]%orb_false_elim. rewrite (IH Hs). reflexivity.
Qed.

Lemma split_append sep s r :
  contains sep s = false ->
  split sep (s +:+ String sep r) = s :: split sep r.
Proof.
  induction s as [|a s IH]; simpl.
  - intros _. rewrite Ascii.eqb_refl. reflexivity.
  - intros [-> Hs]%orb_false_elim. rewrite (IH Hs). reflexivity.
Qed.

Lemma split_at_absent c s : contains c s = false -> split_at c s = (s, "").
Proof. intros H. unfold split_at. rewrite (partition_absent _ _ H). reflexivity. Qed.

Lemma text_no_netloc d r :
  int_text d -> split_netloc (d +:+ r) = ("", d +:+ r).
Proof.
  intros (a & s & -> & Ha)%text_head. unfold split_netloc. simpl.
  destruct (int_char_facts a Ha) as (_ & _ & _ & -> & _). reflexivity.
Qed.

(** Parsing the relative reference [d/] against the scheme [http]. *)
Lemma urlparse_relative d :
  int_text d ->
  urlparse (d +:+ "/") "http" = mkParseResult "http" "" (d +:+ "/") "" "" "".
Proof.
  intros Hd. pose proof (proj1 Hd) as Hc. unfold urlparse.
  rewrite (text_lstrip _ _ Hd), (text_remove_unsafe _ _ Hc).
  assert (Habs : forall c, In c [":"; "/"; "#"; "?"; ";"; "."]%char ->
                           contains c (d +:+ "/") = contains c "/").
  { intros c Hin. rewrite contains_append, (text_absent _ _ Hc Hin). reflexivity. }
  change (remove_chars unsafe_url_byte "/") with "/".
  change (remove_chars unsafe_url_byte (strip c0_control_or_space "http"))
    with "http".
  unfold split_scheme. rewrite partition_absent by (rewrite Habs; simpl; tauto).
  rewrite (text_no_netloc _ _ Hd).
  rewrite !split_at_absent by (rewrite Habs; simpl; tauto).
  rewrite Habs by (simpl; tauto). reflexivity.
Qed.

Lemma urlparse_station d :
  int_text d ->
  urlparse (iheart_base_url +:+ d +:+ "/") ""
  = mkParseResult "http" "www.iheart.com" ("/a/live/station/" +:+ d +:+ "/")
      "" "" "".
Proof.
  intros Hd. pose proof (proj1 Hd) as Hc. unfold urlparse.
  assert (Habs : forall c, In c [":"; "/"; "#"; "?"; ";"; "."]%char ->
                           contains c (d +:+ "/") = contains c "/").
  { intros c Hin. rewrite contains_append, (text_absent _ _ Hc Hin). reflexivity. }
  unfold iheart_base_url. simpl.
  change ("" +:+ d +:+ "/") with (d +:+ "/").
  rewrite (text_remove_unsafe _ _ Hc).
  change (remove_chars unsafe_url_byte "/") with "/".
  unfold split_at. simpl.
  rewrite !partition_absent by (rewrite Habs; simpl; tauto). simpl.
  rewrite !partition_absent by (rewrite Habs; simpl; tauto). simpl.
  rewrite Habs by (simpl; tauto). reflexivity.
Qed.

Lemma urljoin_base d :
  int_text d ->
  urljoin iheart_base_url (d +:+ "/") = iheart_base_url +:+ d +:+ "/".
Proof.
  intros Hd. pose proof (proj1 Hd) as Hc. unfold urljoin. cbv zeta.
  change (urlparse iheart_base_url "")
    with (mkParseResult "http" "www.iheart.com" "/a/live/station/" "" "" "").
  cbn [scheme netloc path params query fragment].
  rewrite (urlparse_relative _ Hd).
  cbn [scheme netloc path params query fragment].
  rewrite (text_nonempty _ _ Hd), (text_not_slash _ _ Hd).
  rewrite (split_append _ _ _ (text_absent _ "/" Hc ltac:(simpl; tauto))).
  destruct (text_not_dots _ Hd) as [Hdd Hdot].
  simpl. rewrite (proj2 Hd). simpl. rewrite Hdd, Hdot. reflexivity.
Qed.

Lemma urljoin_station d :
  int_text d ->
  urljoin (iheart_base_url +:+ d +:+ "/") iheart_url_postfix
  = iheart_base_url +:+ d +:+ "/" +:+ iheart_url_postfix.
Proof.
  intros Hd. pose proof (proj1 Hd) as Hc. unfold urljoin. cbv zeta.
  rewrite (urlparse_station _ Hd).
  cbn [scheme netloc path params query fragment].
  change (urlparse iheart_url_postfix "http")
    with (mkParseResult "http" "" "stream/" "" "" "").
  cbn [scheme netloc path params query fragment].
  change ("/a/live/station/" +:+ d +:+ "/")
    with ("" +:+ String "/" ("a" +:+ String "/" ("live" +:+ String "/"
            ("station" +:+ String "/" (d +:+ String "/" ""))))).
  rewrite !split_append
    by first [reflexivity | exact (text_absent _ "/" Hc ltac:(simpl; tauto))].
  destruct (text_not_dots _ Hd) as [Hdd Hdot].
  simpl. rewrite (proj2 Hd). simpl. rewrite Hdd, Hdot. reflexivity.
Qed.

Lemma iheart_url_eq (station_id : Z) :
  iheart_url station_id
  = iheart_base_url +:+ str station_id +:+ "/" +:+ iheart_url_postfix.
Proof.
  unfold iheart_url.
  rewrite (urljoin_base _ (str_int_text station_id)).
  apply (urljoin_station _ (str_int_text station_id)).
Qed.

End UrlFacts.

(** ** Station lookup: properties *)

Example str_1165 : Str.str 1165 = "1165".
Proof. reflexivity. Qed.

Example str_0 : Str.str 0 = "0".
Proof. reflexivity. Qed.

Example str_negative : Str.str (-42) = "-42".
Proof. reflexivity. Qed.

Lemma bind_lift_ok {A B} (a : A) (f : A -> M B) : bind (lift (Ok a)) f = f a.
Proof. unfold bind, lift. destruct (f a) as [t r]. reflexivity. Qed.

Lemma fst_emit_bind {A} (e : event) (k : M A) :
  fst (emit e ;;; k) = e :: fst k.
Proof. unfold bind, emit. destruct k as [t r]. reflexivity. Qed.

Section Lookup.

Variable urlopen : string -> list byte -> result HTTPResponse.
Variable decode_utf8 : list byte -> result string.
Variable json_loads : string -> result json.

Lemma station_info_decoded station_id response raw text station :
  urlopen (iheart_url station_id) request_body = Ok response ->
  getheader response "Content-Type" = Some json_content_type ->
  read response = Ok raw ->
  decode_utf8 raw = Ok text ->
  json_loads text = Ok station ->
  station_info urlopen decode_utf8 json_loads station_id
  = (emit (EUrlopen (iheart_url station_id) request_body) ;;;
     emit (EGetHeader "Content-Type") ;;;
     emit ERead ;;;
     ok <- getitem station "ok" ;;
     if negb (truthy ok) then
       error <- getitem station "error" ;;
       raise (RuntimeError error)
     else ret station).
Proof.
  intros Hopen Hct Hread Hdec Hjson. unfold station_info.
  rewrite Hopen, bind_lift_ok, Hct.
  unfold is_json_content_type. rewrite String.eqb_refl, bind_ret_l.
  rewrite Hread, bind_lift_ok, Hdec, bind_lift_ok, Hjson, bind_lift_ok.
  reflexivity.
Qed.

End Lookup.

(** C7. Once the response is decoded into a record, the [ok] field
    decides: when it is [false] the lookup fails with the "station error"
    that carries the record's [error] field as it is (["bad id"] gives
    exactly ["bad id"]), and when it is [true] the lookup returns the whole
    record unchanged. *)
Theorem lookup_ok_field
    (urlopen : string -> list byte -> result HTTPResponse)
    (decode_utf8 : list byte -> result string)
    (json_loads : string -> result json)
    (station_id : Z) (response : HTTPResponse) (raw : list byte)
    (text : string) (station : gmap string json) :
  urlopen (iheart_url station_id) request_body = Ok response ->
  getheader response "Content-Type" = Some json_content_type ->
  read response = Ok raw ->
  decode_utf8 raw = Ok text ->
  json_loads text = Ok (JObj station) ->
  (forall msg,
     station !! "ok" = Some (JBool false) ->
     station !! "error" = Some msg ->
     exists e,
       snd (station_info urlopen decode_utf8 json_loads station_id) = Raise e
       /\ station_error msg e)
  /\ (station !! "ok" = Some (JBool true) ->
      snd (station_info urlopen decode_utf8 json_loads station_id)
      = Ok (JObj station)).
Proof.
  intros Hopen Hct Hread Hdec Hjson.
  rewrite (station_info_decoded _ _ _ _ _ _ _ _ Hopen Hct Hread Hdec Hjson).
  split.
  - intros msg Hok Herr. exists (RuntimeError msg). split; [|reflexivity].
    rewrite (getitem_present _ _ _ Hok), (getitem_present _ _ _ Herr).
    reflexivity.
  - intros Hok. rewrite (getitem_present _ _ _ Hok). reflexivity.
Qed.

Lemma lookup_ok_field_witness :
  (exists e,
     snd (station_info (sample_urlopen json_content_type) sample_decode_utf8
            (sample_json_loads record_bad_id) 1165) = Raise e
     /\ station_error (JStr "bad id") e)
  /\ snd (station_info (sample_urlopen json_content_type) sample_decode_utf8
            (sample_json_loads (record_with streams_shout_rtmp)) 1165)
     = Ok (JObj (record_with streams_shout_rtmp)).
Proof.
  split.
  - apply (lookup_ok_field (sample_urlopen json_content_type)
             sample_decode_utf8 (sample_json_loads record_bad_id) 1165
             (sample_response json_content_type) [x7b; x7d] "{}"
             record_bad_id);
      try reflexivity; vm_compute; reflexivity.
  - apply (lookup_ok_field (sample_urlopen json_content_type)
             sample_decode_utf8
             (sample_json_loads (record_with streams_shout_rtmp)) 1165
             (sample_response json_content_type) [x7b; x7d] "{}"
             (record_with streams_shout_rtmp));
      try reflexivity; vm_compute; reflexivity.
Defined.

(** The numeral of an integer is never the empty numeral. *)
Lemma to_int_not_nil (n : Z) :
  Z.to_int n <> Decimal.Pos Decimal.Nil
  /\ Z.to_int n <> Decimal.Neg Decimal.Nil.
Proof.
  destruct n as [|p|p]; simpl; split; try discriminate;
    intros H; injection H as H; exact (DecimalPos.Unsigned.to_uint_nonnil _ H).
Qed.

(** C8. For every station identifier the request URL is
    [http://www.iheart.com/a/live/station/{id}/stream/]: the base path, the
    identifier in decimal followed by [/], and the suffix [stream/]; and
    this is the URL [station_info] opens, with the one-byte body.  The
    decimal text is the one that reads back as the identifier's numeral
    (the standard library's [NilZero.int_of_string] and [Z.to_int], which
    keep every digit, so no other text does); for [1165], [12345], [7] and
    [0] the whole URL is written out. *)
Theorem request_url_template (station_id : Z) :
  (exists digits : string,
     NilZero.int_of_string digits = Some (Z.to_int station_id)
     /\ option_map Z.of_int (NilZero.int_of_string digits) = Some station_id
     /\ Str.str station_id = digits
     /\ iheart_url station_id
        = "http://www.iheart.com/a/live/station/" +:+ digits +:+ "/"
          +:+ "stream/"
     /\ forall urlopen decode_utf8 json_loads,
          hd_error
            (fst (station_info urlopen decode_utf8 json_loads station_id))
          = Some (EUrlopen
                    ("http://www.iheart.com/a/live/station/"
                     +:+ digits +:+ "/" +:+ "stream/")
                    [x31]))
  /\ iheart_url 1165 = "http://www.iheart.com/a/live/station/1165/stream/"
  /\ iheart_url 12345 = "http://www.iheart.com/a/live/station/12345/stream/"
  /\ iheart_url 7 = "http://www.iheart.com/a/live/station/7/stream/"
  /\ iheart_url 0 = "http://www.iheart.com/a/live/station/0/stream/".
Proof.
  split; [|repeat split; rewrite UrlFacts.iheart_url_eq; reflexivity].
  pose proof (UrlFacts.iheart_url_eq station_id) as Hurl.
  destruct (to_int_not_nil station_id) as [Hpos Hneg].
  pose proof (NilZero.isi _ Hpos Hneg) as Hread.
  exists (Str.str station_id). split; [exact Hread|]. split; [|split; [|split]].
  - unfold Str.str. rewrite Hread. simpl. rewrite DecimalZ.of_to. reflexivity.
  - reflexivity.
  - exact Hurl.
  - intros urlopen decode_utf8 json_loads. unfold station_info.
    rewrite fst_emit_bind, Hurl. reflexivity.
Qed.

Lemma request_url_template_witness :
  iheart_url 31337 = "http://www.iheart.com/a/live/station/31337/stream/".
Proof.
  destruct (request_url_template 31337)
    as [(digits & Hread & _ & _ & Hurl & _) _].
  apply NilZero.sis in Hread. rewrite <- Hread in Hurl. exact Hurl.
Defined.

(** C9. When the response's content type is anything but
    [application/json; charset=utf-8] (or is missing), the lookup fails
    with the "unexpected response format" error right after reading the
    header: the body is neither read nor decoded, whatever the decoders
    are. *)
Theorem lookup_wrong_content_type
    (urlopen : string -> list byte -> result HTTPResponse)
    (decode_utf8 : list byte -> result string)
    (json_loads : string -> result json)
    (station_id : Z) (response : HTTPResponse) :
  urlopen (iheart_url station_id) request_body = Ok response ->
  getheader response "Content-Type"
  <> Some "application/json; charset=utf-8" ->
  exists e,
    station_info urlopen decode_utf8 json_loads station_id
    = ([EUrlopen (iheart_url station_id) request_body;
        EGetHeader "Content-Type"], Raise e)
    /\ unexpected_response_format e.
Proof.
  intros Hopen Hct. exists AssertionError. split; [|reflexivity].
  unfold station_info. rewrite Hopen, bind_lift_ok.
  assert (Hno : is_json_content_type (getheader response "Content-Type")
                = false).
  { unfold is_json_content_type.
    destruct (getheader response "Content-Type") as [h|]; [|reflexivity].
    apply String.eqb_neq. intros ->. apply Hct. reflexivity. }
  rewrite Hno. reflexivity.
Qed.

Lemma lookup_wrong_content_type_witness :
  exists e,
    station_info (sample_urlopen "text/html") sample_decode_utf8
      (sample_json_loads record_bad_id) 1165
    = ([EUrlopen (iheart_url 1165) request_body; EGetHeader "Content-Type"],
       Raise e)
    /\ unexpected_response_format e.
Proof.
  apply (lookup_wrong_content_type (sample_urlopen "text/html")
           sample_decode_utf8 (sample_json_loads record_bad_id) 1165
           (sample_response "text/html")).
  - reflexivity.
  - simpl. discriminate.
Defined.

(** ** Stream selection: further properties *)

Lemma getitem_not_dict (v : json) (key : string) :
  not_a_dict v -> getitem v key = raise TypeError.
Proof.
  intros H. destruct v as [| | | | | |m]; try reflexivity.
  exfalso. exact (H m eq_refl).
Qed.

Lemma present_or_absent (m : gmap string json) (candidates : list string) :
  Exists (fun k => is_Some (m !! k)) candidates
  \/ Forall (fun k => m !! k = None) candidates.
Proof.
  induction candidates as [|c rest IH].
  - right. constructor.
  - destruct (m !! c) as [v|] eqn:Hc.
    + left. apply Exists_cons_hd. rewrite Hc. eauto.
    + destruct IH as [IH|IH].
      * left. apply Exists_cons_tl. exact IH.
      * right. constructor; assumption.
Qed.

(** On a [streams] value that is not a [dict] the first subscript of the
    loop raises [TypeError], which the [except KeyError] lets through. *)
Lemma detect_stream_not_dict (top : gmap string json) (s : json) :
  top !! "streams" = Some s -> not_a_dict s ->
  detect_stream (JObj top) = ([], Raise TypeError).
Proof.
  intros Hs Hnd. unfold detect_stream.
  rewrite (getitem_present _ _ _ Hs), bind_ret_l.
  cbn [preference_order detect_loop].
  rewrite (getitem_not_dict _ _ Hnd). reflexivity.
Qed.

Lemma detect_stream_no_streams (top : gmap string json) :
  top !! "streams" = None ->
  detect_stream (JObj top) = ([], Raise (KeyError "streams")).
Proof.
  intros Hs. unfold detect_stream. rewrite (getitem_absent _ _ Hs).
  reflexivity.
Qed.

Lemma json_dict_or_not (v : json) : (exists m, v = JObj m) \/ not_a_dict v.
Proof.
  destruct v as [| | | | | |m]; try (right; intros m' H; discriminate H).
  left. eauto.
Qed.

(** Every way a call of [detect_stream] can end. *)
Lemma detect_stream_cases (station : json) :
  detect_stream station = ([], Raise TypeError)
  \/ detect_stream station = ([], Raise (KeyError "streams"))
  \/ detect_stream station
     = ([EPrint stw_warning], Raise (UnboundLocalError "choice"))
  \/ exists top m before k after v,
       station = JObj top
       /\ top !! "streams" = Some (JObj m)
       /\ preference_order = before ++ k :: after
       /\ Forall (fun k' => m !! k' = None) before
       /\ m !! k = Some v
       /\ detect_stream station
          = ([EPrint ("stream type auto: using " +:+ k)], Ok v).
Proof.
  destruct station as [| | | | | |top]; try (left; reflexivity).
  destruct (top !! "streams") as [s|] eqn:Hs;
    [|right; left; exact (detect_stream_no_streams _ Hs)].
  destruct (json_dict_or_not s) as [[m ->]|Hnd];
    [|left; exact (detect_stream_not_dict _ _ Hs Hnd)].
  destruct (present_or_absent m preference_order) as [Hex|Habs];
    [|right; right; left; exact (detect_stream_exhausted _ _ Hs Habs)].
  destruct (first_present _ _ Hex)
    as (before & k & after & v & Hp & Habs & Hk).
  right. right. right. exists top, m, before, k, after, v.
  repeat split; try assumption.
  exact (detect_stream_found _ _ _ _ _ _ Hs Hp Habs Hk).
Qed.

(** X1. Whatever [detect_stream] returns is the value of the first
    preference key present in the record's [streams] dict, and the only
    line printed on the way is ["stream type auto: using <key>"]. *)
Theorem detect_stream_sound (station : json) (t : list event) (v : json) :
  detect_stream station = (t, Ok v) ->
  exists top m before k after,
    station = JObj top
    /\ top !! "streams" = Some (JObj m)
    /\ preference_order = before ++ k :: after
    /\ Forall (fun k' => m !! k' = None) before
    /\ m !! k = Some v
    /\ t = [EPrint ("stream type auto: using " +:+ k)].
Proof.
  intros Hrun.
  destruct (detect_stream_cases station)
    as [H|[H|[H|(top & m & before & k & after & v' & Hst & Hs & Hp & Habs
                  & Hk & H)]]];
    rewrite H in Hrun; try discriminate Hrun.
  injection Hrun as <- <-.
  exists top, m, before, k, after. repeat split; assumption.
Qed.

Lemma detect_stream_sound_witness :
  exists top m before k after,
    JObj (record_with streams_stw_only) = JObj top
    /\ top !! "streams" = Some (JObj m)
    /\ preference_order = before ++ k :: after
    /\ Forall (fun k' => m !! k' = None) before
    /\ m !! k = Some (JStr "http://stw.example/live")
    /\ [EPrint "stream type auto: using stw_stream"]
       = [EPrint ("stream type auto: using " +:+ k)].
Proof.
  apply (detect_stream_sound (JObj (record_with streams_stw_only))
           [EPrint "stream type auto: using stw_stream"]
           (JStr "http://stw.example/live")).
  vm_compute. reflexivity.
Defined.

Lemma detect_loop_agree (m1 m2 : gmap string json) (candidates : list string) :
  (forall k, In k candidates -> m1 !! k = m2 !! k) ->
  detect_loop (JObj m1) candidates = detect_loop (JObj m2) candidates.
Proof.
  induction candidates as [|c rest IH]; intros Hagree; [reflexivity|].
  cbn [detect_loop getitem].
  rewrite (Hagree c (or_introl eq_refl)), IH; [reflexivity|].
  intros k Hk. apply Hagree. right. exact Hk.
Qed.

(** X2. Automatic selection looks at the four preference keys only: two
    records whose [streams] dicts agree on these keys give the same result
    and the same output, whatever other keys they hold. *)
Theorem detect_stream_four_keys_only (top1 top2 m1 m2 : gmap string json) :
  top1 !! "streams" = Some (JObj m1) ->
  top2 !! "streams" = Some (JObj m2) ->
  (forall k, In k preference_order -> m1 !! k = m2 !! k) ->
  detect_stream (JObj top1) = detect_stream (JObj top2).
Proof.
  intros H1 H2 Hagree. unfold detect_stream.
  rewrite (getitem_present _ _ _ H1), (getitem_present _ _ _ H2).
  rewrite !bind_ret_l, (detect_loop_agree _ _ _ Hagree). reflexivity.
Qed.

Lemma detect_stream_four_keys_only_witness :
  detect_stream (JObj (record_with streams_stw_hls))
  = detect_stream (JObj (record_with streams_stw_only)).
Proof.
  apply (detect_stream_four_keys_only (record_with streams_stw_hls)
           (record_with streams_stw_only) streams_stw_hls streams_stw_only).
  - vm_compute. reflexivity.
  - vm_compute. reflexivity.
  - intros k Hk. simpl in Hk.
    destruct Hk as [<-|[<-|[<-|[<-|[]]]]]; vm_compute; reflexivity.
Defined.

(** [get_station_url] as a branch followed by the final check. *)
Lemma get_station_url_auto (station : json) :
  get_station_url station "auto"
  = (station_url <- detect_stream station ;; final_check station_url).
Proof. reflexivity. Qed.

Lemma get_station_url_explicit (station : json) (tag key : string) :
  In (tag, key) explicit_formats ->
  get_station_url station tag
  = (station_url <- lookup_branch station key (branch_print tag) ;;
     final_check station_url).
Proof.
  intros Hin. simpl in Hin.
  destruct Hin as [H|[H|[H|[H|[]]]]]; injection H as <- <-; reflexivity.
Qed.

Lemma get_station_url_unknown (station : json) (stream_type : string) :
  ~ In stream_type known_types ->
  get_station_url station stream_type
  = ([], Raise (RuntimeError (JStr no_such_stream_message))).
Proof.
  intros Hnot. unfold get_station_url.
  assert (Hne : forall ty, In ty known_types ->
                           String.eqb stream_type ty = false).
  { intros ty Hty. apply String.eqb_neq. intros ->. exact (Hnot Hty). }
  rewrite !Hne by (simpl; tauto). reflexivity.
Qed.

Lemma known_type_cases (stream_type : string) :
  In stream_type known_types ->
  stream_type = "auto" \/ exists key, In (stream_type, key) explicit_formats.
Proof.
  simpl. intros [<-|[<-|[<-|[<-|[<-|[]]]]]]; [left; reflexivity|..];
    right; eexists; simpl; eauto 6.
Qed.

Lemma known_type_dec (stream_type : string) :
  In stream_type known_types \/ ~ In stream_type known_types.
Proof.
  destruct (in_dec String.string_dec stream_type known_types); auto.
Qed.

Lemma explicit_key_preferred (tag key : string) :
  In (tag, key) explicit_formats -> In key preference_order.
Proof.
  simpl. intros [H|[H|[H|[H|[]]]]]; injection H as <- <-; tauto.
Qed.

Lemma preferred_key_explicit (key : string) :
  In key preference_order -> exists tag, In (tag, key) explicit_formats.
Proof.
  simpl. intros [<-|[<-|[<-|[<-|[]]]]]; eexists; simpl; eauto 6.
Qed.

(** Every way one explicit branch can end. *)
Lemma lookup_branch_cases (station : json) (tag key : string) :
  lookup_branch station key (branch_print tag) = ([], Raise TypeError)
  \/ lookup_branch station key (branch_print tag)
     = ([], Raise (KeyError "streams"))
  \/ lookup_branch station key (branch_print tag) = ([], Raise (KeyError key))
  \/ lookup_branch station key (branch_print tag) = ([], Ok JNull)
  \/ exists top m v,
       station = JObj top
       /\ top !! "streams" = Some (JObj m)
       /\ m !! key = Some v
       /\ truthy v = true
       /\ lookup_branch station key (branch_print tag)
          = (explicit_output tag, Ok v).
Proof.
  destruct station as [| | | | | |top]; try (left; reflexivity).
  destruct (top !! "streams") as [s|] eqn:Hs.
  2:{ right. left. unfold lookup_branch.
      rewrite (getitem_absent _ _ Hs). reflexivity. }
  destruct (json_dict_or_not s) as [[m ->]|Hnd].
  2:{ left. unfold lookup_branch.
      rewrite (getitem_present _ _ _ Hs), bind_ret_l.
      rewrite (getitem_not_dict _ _ Hnd). reflexivity. }
  destruct (m !! key) as [v|] eqn:Hk.
  2:{ right. right. left. exact (lookup_branch_absent _ _ _ _ Hs Hk). }
  destruct (truthy v) eqn:Hv.
  2:{ right. right. right. left.
      exact (lookup_branch_falsy _ _ _ _ _ Hs Hk Hv). }
  right. right. right. right. exists top, m, v.
  repeat split; try assumption.
  rewrite (lookup_branch_truthy _ _ _ _ _ Hs Hk Hv).
  unfold branch_print, explicit_output.
  destruct (String.eqb tag "stw"); reflexivity.
Qed.

Lemma final_check_truthy (t : list event) (v : json) :
  truthy v = true ->
  bind (A:=json) (t, Ok v) final_check = (t, Ok v).
Proof.
  intros Hv. unfold bind, final_check. rewrite Hv. simpl.
  rewrite app_nil_r. reflexivity.
Qed.

Lemma final_check_falsy (t : list event) (v : json) :
  truthy v = false ->
  bind (A:=json) (t, Ok v) final_check
  = (t, Raise (RuntimeError (JStr no_such_stream_message))).
Proof.
  intros Hv. unfold bind, final_check. rewrite Hv. simpl.
  rewrite app_nil_r. reflexivity.
Qed.

(** X3. [get_station_url] reads nothing of the record but its [streams]
    field: two records with the same [streams] give the same result for
    every stream type, whatever [ok], [error] or [stream_urls] hold. *)
Theorem get_station_url_streams_only
    (top1 top2 : gmap string json) (stream_type : string) :
  top1 !! "streams" = top2 !! "streams" ->
  get_station_url (JObj top1) stream_type
  = get_station_url (JObj top2) stream_type.
Proof.
  intros Hsame.
  assert (Hget : getitem (JObj top1) "streams" = getitem (JObj top2) "streams").
  { unfold getitem. rewrite Hsame. reflexivity. }
  unfold get_station_url, detect_stream, lookup_branch.
  rewrite Hget. reflexivity.
Qed.

Lemma get_station_url_streams_only_witness :
  get_station_url (JObj (record_not_ok_with streams_shout_rtmp)) "rtmp"
  = get_station_url (JObj (record_with streams_shout_rtmp)) "rtmp".
Proof.
  apply (get_station_url_streams_only
           (record_not_ok_with streams_shout_rtmp)
           (record_with streams_shout_rtmp) "rtmp").
  vm_compute. reflexivity.
Defined.

(** X4. For each of the five known stream types a record without a
    [streams] field makes [get_station_url] fail with [KeyError] on
    ["streams"], before anything is printed. *)
Theorem missing_streams_key_error
    (top : gmap string json) (stream_type : string) :
  In stream_type known_types ->
  top !! "streams" = None ->
  get_station_url (JObj top) stream_type = ([], Raise (KeyError "streams")).
Proof.
  intros Hty Hs.
  destruct (known_type_cases _ Hty) as [->|[key Hkey]].
  - rewrite get_station_url_auto, (detect_stream_no_streams _ Hs).
    reflexivity.
  - rewrite (get_station_url_explicit _ _ _ Hkey). unfold lookup_branch.
    rewrite (getitem_absent _ _ Hs). reflexivity.
Qed.

Lemma missing_streams_key_error_witness :
  get_station_url (JObj record_bad_id) "auto"
  = ([], Raise (KeyError "streams")).
Proof.
  apply (missing_streams_key_error record_bad_id "auto").
  - simpl. left. reflexivity.
  - vm_compute. reflexivity.
Defined.

(** X5. When the record is not a [dict], or its [streams] field is not one
    (for instance [null]), each of the five known stream types fails with
    [TypeError]: the [except KeyError] of the automatic mode does not catch
    it. *)
Theorem streams_not_dict_type_error (station : json) (stream_type : string) :
  In stream_type known_types ->
  not_a_dict station
  \/ (exists top s, station = JObj top /\ top !! "streams" = Some s
                    /\ not_a_dict s) ->
  get_station_url station stream_type = ([], Raise TypeError).
Proof.
  intros Hty Hshape.
  destruct (known_type_cases _ Hty) as [->|[key Hkey]].
  - rewrite get_station_url_auto.
    destruct Hshape as [Hnd|(top & s & -> & Hs & Hnd)].
    + unfold detect_stream. rewrite (getitem_not_dict _ _ Hnd). reflexivity.
    + rewrite (detect_stream_not_dict _ _ Hs Hnd). reflexivity.
  - rewrite (get_station_url_explicit _ _ _ Hkey). unfold lookup_branch.
    destruct Hshape as [Hnd|(top & s & -> & Hs & Hnd)].
    + rewrite (getitem_not_dict _ _ Hnd). reflexivity.
    + rewrite (getitem_present _ _ _ Hs), bind_ret_l.
      rewrite (getitem_not_dict _ _ Hnd). reflexivity.
Qed.

Lemma streams_not_dict_type_error_witness :
  get_station_url (JObj record_null_streams) "auto" = ([], Raise TypeError).
Proof.
  apply (streams_not_dict_type_error (JObj record_null_streams) "auto").
  - simpl. left. reflexivity.
  - right. exists record_null_streams, JNull.
    split; [reflexivity|]. split; [vm_compute; reflexivity|].
    intros m H. discriminate H.
Defined.

(** X6. For each explicit stream type, a [streams] dict without the key
    that type reads makes [get_station_url] fail with the [KeyError] of
    that key; nothing is printed, not even for [stw]. *)
Theorem explicit_absent_key_error
    (top m : gmap string json) (tag key : string) :
  In (tag, key) explicit_formats ->
  top !! "streams" = Some (JObj m) ->
  m !! key = None ->
  get_station_url (JObj top) tag = ([], Raise (KeyError key)).
Proof.
  intros Hin Hs Hk. rewrite (get_station_url_explicit _ _ _ Hin).
  rewrite (lookup_branch_absent _ _ _ _ Hs Hk). reflexivity.
Qed.

Lemma explicit_absent_key_error_witness :
  get_station_url (JObj (record_with streams_shout_rtmp)) "stw"
  = ([], Raise (KeyError "stw_stream")).
Proof.
  apply (explicit_absent_key_error (record_with streams_shout_rtmp)
           streams_shout_rtmp "stw" "stw_stream").
  - simpl. tauto.
  - vm_compute. reflexivity.
  - vm_compute. reflexivity.
Defined.

(** X7. For each explicit stream type, when the key that type reads holds
    a truthy value, [get_station_url] returns exactly that value, whatever
    the other keys hold; it prints nothing, except for [stw], which prints
    the warning once. *)
Theorem explicit_truthy_returns
    (top m : gmap string json) (tag key : string) (v : json) :
  In (tag, key) explicit_formats ->
  top !! "streams" = Some (JObj m) ->
  m !! key = Some v ->
  truthy v = true ->
  get_station_url (JObj top) tag = (explicit_output tag, Ok v).
Proof.
  intros Hin Hs Hk Hv. rewrite (get_station_url_explicit _ _ _ Hin).
  rewrite (lookup_branch_truthy _ _ _ _ _ Hs Hk Hv).
  unfold branch_print, explicit_output.
  destruct (String.eqb tag "stw").
  - change (print stw_warning ;;; ret v) with ([EPrint stw_warning], Ok v).
    exact (final_check_truthy _ _ Hv).
  - rewrite bind_ret_l. exact (final_check_truthy _ _ Hv).
Qed.

Lemma explicit_truthy_returns_witness :
  get_station_url (JObj (record_with streams_shout_rtmp)) "rtmp"
  = ([], Ok (JStr "rtmp://rtmp.example/live")).
Proof.
  apply (explicit_truthy_returns (record_with streams_shout_rtmp)
           streams_shout_rtmp "rtmp" "secure_rtmp_stream"
           (JStr "rtmp://rtmp.example/live")).
  - simpl. tauto.
  - vm_compute. reflexivity.
  - vm_compute. reflexivity.
  - reflexivity.
Defined.

(** X8. Automatic mode does not fall through a falsy value: when the first
    preference key present holds a falsy value, [get_station_url] prints
    ["stream type auto: using <key>"] and fails with the "no such stream"
    error, even if a later key holds a usable URL. *)
Theorem auto_falsy_first_fails
    (top m : gmap string json) (before after : list string)
    (k : string) (v : json) :
  top !! "streams" = Some (JObj m) ->
  preference_order = before ++ k :: after ->
  Forall (fun k' => m !! k' = None) before ->
  m !! k = Some v ->
  truthy v = false ->
  get_station_url (JObj top) "auto"
  = ([EPrint ("stream type auto: using " +:+ k)],
     Raise (RuntimeError (JStr "Requested stream does not exist"))).
Proof.
  intros Hs Hp Habs Hk Hv. rewrite get_station_url_auto.
  rewrite (detect_stream_found _ _ _ _ _ _ Hs Hp Habs Hk).
  exact (final_check_falsy _ _ Hv).
Qed.

Lemma auto_falsy_first_fails_witness :
  get_station_url (JObj (record_with streams_empty_shout_pls)) "auto"
  = ([EPrint "stream type auto: using shoutcast_stream"],
     Raise (RuntimeError (JStr "Requested stream does not exist")))
  /\ streams_empty_shout_pls !! "pls_stream"
     = Some (JStr "http://pls.example/live.pls").
Proof.
  split.
  - apply (auto_falsy_first_fails (record_with streams_empty_shout_pls)
             streams_empty_shout_pls []
             ["pls_stream"; "secure_rtmp_stream"; "stw_stream"]
             "shoutcast_stream" (JStr "")).
    + vm_compute. reflexivity.
    + reflexivity.
    + constructor.
    + vm_compute. reflexivity.
    + reflexivity.
  - vm_compute. reflexivity.
Defined.

(** X9. [get_station_url] never hands out a falsy value: whatever it
    returns is truthy and is stored in the record's [streams] dict under
    one of the four recognised keys. *)
Theorem get_station_url_result_sound
    (station : json) (stream_type : string) (t : list event) (v : json) :
  get_station_url station stream_type = (t, Ok v) ->
  truthy v = true
  /\ exists top m key,
       station = JObj top
       /\ top !! "streams" = Some (JObj m)
       /\ In key preference_order
       /\ m !! key = Some v.
Proof.
  intros Hrun.
  destruct (known_type_dec stream_type) as [Hty|Hty];
    [|rewrite (get_station_url_unknown _ _ Hty) in Hrun; discriminate Hrun].
  destruct (known_type_cases _ Hty) as [->|[key Hkey]].
  - rewrite get_station_url_auto in Hrun.
    destruct (detect_stream_cases station)
      as [H|[H|[H|(top & m & before & k & after & v' & Hst & Hs & Hp & _
                    & Hk & H)]]];
      rewrite H in Hrun; try discriminate Hrun.
    destruct (truthy v') eqn:Hv;
      [rewrite (final_check_truthy _ _ Hv) in Hrun
      |rewrite (final_check_falsy _ _ Hv) in Hrun; discriminate Hrun].
    injection Hrun as <- <-. split; [exact Hv|].
    exists top, m, k. repeat split; try assumption.
    rewrite Hp. apply in_elt.
  - rewrite (get_station_url_explicit _ _ _ Hkey) in Hrun.
    destruct (lookup_branch_cases station stream_type key)
      as [H|[H|[H|[H|(top & m & v' & Hst & Hs & Hk & Hv & H)]]]];
      rewrite H in Hrun; try discriminate Hrun.
    rewrite (final_check_truthy _ _ Hv) in Hrun.
    injection Hrun as <- <-. split; [exact Hv|].
    exists top, m, key. repeat split; try assumption.
    exact (explicit_key_preferred _ _ Hkey).
Qed.

Lemma get_station_url_result_sound_witness :
  truthy (JStr "http://stw.example/live") = true
  /\ exists top m key,
       JObj (record_with streams_stw_only) = JObj top
       /\ top !! "streams" = Some (JObj m)
       /\ In key preference_order
       /\ m !! key = Some (JStr "http://stw.example/live").
Proof.
  apply (get_station_url_result_sound (JObj (record_with streams_stw_only))
           "stw" [EPrint stw_warning] (JStr "http://stw.example/live")).
  vm_compute. reflexivity.
Defined.

(** X10. Whatever automatic mode returns can be asked for by name: when
    [get_station_url] with ["auto"] returns a URL, one of the explicit
    stream types returns the same URL on the same record. *)
Theorem auto_result_available_explicitly
    (station : json) (t : list event) (v : json) :
  get_station_url station "auto" = (t, Ok v) ->
  exists tag key,
    In (tag, key) explicit_formats
    /\ t = [EPrint ("stream type auto: using " +:+ key)]
    /\ get_station_url station tag = (explicit_output tag, Ok v).
Proof.
  intros Hrun. rewrite get_station_url_auto in Hrun.
  destruct (detect_stream_cases station)
    as [H|[H|[H|(top & m & before & k & after & v' & -> & Hs & Hp & _
                  & Hk & H)]]];
    rewrite H in Hrun; try discriminate Hrun.
  destruct (truthy v') eqn:Hv;
    [rewrite (final_check_truthy _ _ Hv) in Hrun
    |rewrite (final_check_falsy _ _ Hv) in Hrun; discriminate Hrun].
  injection Hrun as <- <-.
  destruct (preferred_key_explicit k) as [tag Htag];
    [rewrite Hp; apply in_elt|].
  exists tag, k. split; [exact Htag|]. split; [reflexivity|].
  rewrite (get_station_url_explicit _ _ _ Htag).
  rewrite (lookup_branch_truthy _ _ _ _ _ Hs Hk Hv).
  unfold branch_print, explicit_output.
  destruct (String.eqb tag "stw").
  - change (print stw_warning ;;; ret v') with ([EPrint stw_warning], Ok v').
    exact (final_check_truthy _ _ Hv).
  - rewrite bind_ret_l. exact (final_check_truthy _ _ Hv).
Qed.

Lemma auto_result_available_explicitly_witness :
  exists tag key,
    In (tag, key) explicit_formats
    /\ [EPrint "stream type auto: using shoutcast_stream"]
       = [EPrint ("stream type auto: using " +:+ key)]
    /\ get_station_url (JObj (record_with streams_shout_rtmp)) tag
       = (explicit_output tag, Ok (JStr "http://shout.example/live")).
Proof.
  apply (auto_result_available_explicitly
           (JObj (record_with streams_shout_rtmp))
           [EPrint "stream type auto: using shoutcast_stream"]
           (JStr "http://shout.example/live")).
  vm_compute. reflexivity.
Defined.

(** X11. The only exceptions [get_station_url] raises are [TypeError], the
    [KeyError] of ["streams"] or of the key the explicit type reads, the
    [UnboundLocalError] of automatic mode, and the "no such stream"
    [RuntimeError]. *)
Theorem get_station_url_errors
    (station : json) (stream_type : string) (t : list event) (e : exn) :
  get_station_url station stream_type = (t, Raise e) ->
  e = TypeError
  \/ e = KeyError "streams"
  \/ (exists key, In (stream_type, key) explicit_formats /\ e = KeyError key)
  \/ (stream_type = "auto" /\ e = UnboundLocalError "choice")
  \/ no_such_stream e.
Proof.
  intros Hrun.
  destruct (known_type_dec stream_type) as [Hty|Hty].
  2:{ rewrite (get_station_url_unknown _ _ Hty) in Hrun.
      injection Hrun as <- <-. do 4 right. reflexivity. }
  destruct (known_type_cases _ Hty) as [->|[key Hkey]].
  - rewrite get_station_url_auto in Hrun.
    destruct (detect_stream_cases station)
      as [H|[H|[H|(top & m & before & k & after & v' & _ & _ & _ & _
                    & _ & H)]]];
      rewrite H in Hrun.
    + injection Hrun as <- <-. left. reflexivity.
    + injection Hrun as <- <-. right. left. reflexivity.
    + injection Hrun as <- <-. do 3 right. left. split; reflexivity.
    + destruct (truthy v') eqn:Hv;
        [rewrite (final_check_truthy _ _ Hv) in Hrun; discriminate Hrun
        |rewrite (final_check_falsy _ _ Hv) in Hrun].
      injection Hrun as <- <-. do 4 right. reflexivity.
  - rewrite (get_station_url_explicit _ _ _ Hkey) in Hrun.
    destruct (lookup_branch_cases station stream_type key)
      as [H|[H|[H|[H|(top & m & v' & _ & _ & _ & Hv & H)]]]];
      rewrite H in Hrun.
    + injection Hrun as <- <-. left. reflexivity.
    + injection Hrun as <- <-. right. left. reflexivity.
    + injection Hrun as <- <-. do 2 right. left. exists key.
      split; [exact Hkey | reflexivity].
    + injection Hrun as <- <-. do 4 right. reflexivity.
    + rewrite (final_check_truthy _ _ Hv) in Hrun. discriminate Hrun.
Qed.

Lemma get_station_url_errors_witness :
  KeyError "pls_stream" = TypeError
  \/ KeyError "pls_stream" = KeyError "streams"
  \/ (exists key, In ("pls", key) explicit_formats
                  /\ KeyError "pls_stream" = KeyError key)
  \/ ("pls" = "auto" /\ KeyError "pls_stream" = UnboundLocalError "choice")
  \/ no_such_stream (KeyError "pls_stream").
Proof.
  apply (get_station_url_errors (JObj (record_with streams_shout_rtmp))
           "pls" [] (KeyError "pls_stream")).
  vm_compute. reflexivity.
Defined.

(** ** Station lookup: further properties *)

(** Every way the last statements of [station_info] can end; none of them
    prints or calls the network. *)
Lemma check_ok_cases (station : json) :
  (not_a_dict station /\ check_ok station = ([], Raise TypeError))
  \/ (exists m, station = JObj m /\ m !! "ok" = None
                /\ check_ok station = ([], Raise (KeyError "ok")))
  \/ (exists m ok, station = JObj m /\ m !! "ok" = Some ok
                   /\ truthy ok = true
                   /\ check_ok station = ([], Ok station))
  \/ (exists m ok, station = JObj m /\ m !! "ok" = Some ok
                   /\ truthy ok = false /\ m !! "error" = None
                   /\ check_ok station = ([], Raise (KeyError "error")))
  \/ (exists m ok msg, station = JObj m /\ m !! "ok" = Some ok
                       /\ truthy ok = false /\ m !! "error" = Some msg
                       /\ check_ok station = ([], Raise (RuntimeError msg))).
Proof.
  destruct (json_dict_or_not station) as [[m ->]|Hnd].
  2:{ left. split; [exact Hnd|]. unfold check_ok.
      rewrite (getitem_not_dict _ _ Hnd). reflexivity. }
  right. unfold check_ok.
  destruct (m !! "ok") as [ok|] eqn:Hok.
  2:{ left. exists m. rewrite (getitem_absent _ _ Hok). auto. }
  right. rewrite (getitem_present _ _ _ Hok), bind_ret_l.
  destruct (truthy ok) eqn:Hv; cbn [negb].
  { left. exists m, ok. auto. }
  right. destruct (m !! "error") as [msg|] eqn:Herr.
  - right. exists m, ok, msg. rewrite (getitem_present _ _ _ Herr). auto.
  - left. exists m, ok. rewrite (getitem_absent _ _ Herr). auto.
Qed.

Lemma check_ok_silent (station : json) : fst (check_ok station) = [].
Proof.
  destruct (check_ok_cases station)
    as [[_ H]|[(m & _ & _ & H)|[(m & ok & _ & _ & _ & H)
       |[(m & ok & _ & _ & _ & _ & H)|(m & ok & msg & _ & _ & _ & _ & H)]]]];
    rewrite H; reflexivity.
Qed.

Section LookupCases.

Variable urlopen : string -> list byte -> result HTTPResponse.
Variable decode_utf8 : list byte -> result string.
Variable json_loads : string -> result json.
Variable station_id : Z.

(** Every way a call of [station_info] can end, stage by stage. *)
Lemma station_info_cases :
  (exists e,
     urlopen (iheart_url station_id) request_body = Raise e
     /\ station_info urlopen decode_utf8 json_loads station_id
        = (firstn 1 (lookup_events station_id), Raise e))
  \/ (exists response,
        urlopen (iheart_url station_id) request_body = Ok response
        /\ is_json_content_type (getheader response "Content-Type") = false
        /\ station_info urlopen decode_utf8 json_loads station_id
           = (firstn 2 (lookup_events station_id), Raise AssertionError))
  \/ (exists response,
        urlopen (iheart_url station_id) request_body = Ok response
        /\ is_json_content_type (getheader response "Content-Type") = true
        /\ ((exists e,
               read response = Raise e
               /\ station_info urlopen decode_utf8 json_loads station_id
                  = (lookup_events station_id, Raise e))
            \/ (exists raw e,
                  read response = Ok raw /\ decode_utf8 raw = Raise e
                  /\ station_info urlopen decode_utf8 json_loads station_id
                     = (lookup_events station_id, Raise e))
            \/ (exists raw text e,
                  read response = Ok raw /\ decode_utf8 raw = Ok text
                  /\ json_loads text = Raise e
                  /\ station_info urlopen decode_utf8 json_loads station_id
                     = (lookup_events station_id, Raise e))
            \/ (exists raw text station,
                  read response = Ok raw /\ decode_utf8 raw = Ok text
                  /\ json_loads text = Ok station
                  /\ station_info urlopen decode_utf8 json_loads station_id
                     = (lookup_events station_id, snd (check_ok station))))).
Proof.
  unfold station_info.
  destruct (urlopen (iheart_url station_id) request_body)
    as [response|e] eqn:Hopen.
  2:{ left. exists e. split; reflexivity. }
  right. rewrite bind_lift_ok.
  destruct (is_json_content_type (getheader response "Content-Type"))
    eqn:Hct.
  2:{ left. exists response. split; [reflexivity|].
      split; [exact Hct | reflexivity]. }
  right. exists response. split; [reflexivity|]. split; [exact Hct|].
  rewrite bind_ret_l.
  destruct (read response) as [raw|e] eqn:Hread.
  2:{ left. exists e. split; reflexivity. }
  right. rewrite bind_lift_ok.
  destruct (decode_utf8 raw) as [text|e] eqn:Hdec.
  2:{ left. exists raw, e. split; [reflexivity|].
      split; [exact Hdec | reflexivity]. }
  right. rewrite bind_lift_ok.
  destruct (json_loads text) as [station|e] eqn:Hjson.
  2:{ left. exists raw, text, e. split; [reflexivity|].
      split; [exact Hdec|]. split; [exact Hjson | reflexivity]. }
  right. exists raw, text, station. rewrite bind_lift_ok.
  split; [reflexivity|]. split; [exact Hdec|]. split; [exact Hjson|].
  change (ok <- getitem station "ok" ;;
          (if negb (truthy ok)
           then error <- getitem station "error" ;; raise (RuntimeError error)
           else ret station))
    with (check_ok station).
  pose proof (check_ok_silent station) as Hsilent.
  destruct (check_ok station) as [t r]. simpl in Hsilent. subst t.
  reflexivity.
Qed.

End LookupCases.

Lemma is_json_content_type_true (h : option string) :
  is_json_content_type h = true -> h = Some json_content_type.
Proof.
  destruct h as [s|]; simpl; [|discriminate].
  intros H. apply String.eqb_eq in H. congruence.
Qed.

(** X12. A record returned by [station_info] is always a [dict] with a
    truthy [ok] field, decoded from the body of a response that announced
    [application/json; charset=utf-8]; the call has made exactly the three
    calls [urlopen], [getheader], [read], in this order. *)
Theorem station_info_result_sound
    (urlopen : string -> list byte -> result HTTPResponse)
    (decode_utf8 : list byte -> result string)
    (json_loads : string -> result json)
    (station_id : Z) (t : list event) (station : json) :
  station_info urlopen decode_utf8 json_loads station_id = (t, Ok station) ->
  t = [EUrlopen (iheart_url station_id) request_body;
       EGetHeader "Content-Type"; ERead]
  /\ exists response raw text m ok,
       urlopen (iheart_url station_id) request_body = Ok response
       /\ getheader response "Content-Type"
          = Some "application/json; charset=utf-8"
       /\ read response = Ok raw
       /\ decode_utf8 raw = Ok text
       /\ json_loads text = Ok station
       /\ station = JObj m
       /\ m !! "ok" = Some ok
       /\ truthy ok = true.
Proof.
  intros Hrun.
  destruct (station_info_cases urlopen decode_utf8 json_loads station_id)
    as [(e & _ & H)|[(r & _ & _ & H)|(r & Hopen & Hct & Hrest)]];
    try (rewrite H in Hrun; discriminate Hrun).
  destruct Hrest
    as [(e & _ & H)|[(raw & e & _ & _ & H)|[(raw & text & e & _ & _ & _ & H)
       |(raw & text & s & Hread & Hdec & Hjson & H)]]];
    rewrite H in Hrun; try discriminate Hrun.
  injection Hrun as <- Hres. split; [reflexivity|].
  destruct (check_ok_cases s)
    as [[_ Hc]|[(m & _ & _ & Hc)|[(m & ok & Hs & Hok & Hv & Hc)
       |[(m & ok & _ & _ & _ & _ & Hc)|(m & ok & msg & _ & _ & _ & _ & Hc)]]]];
    rewrite Hc in Hres; try discriminate Hres.
  injection Hres as <-.
  exists r, raw, text, m, ok.
  repeat split; try assumption.
  exact (is_json_content_type_true _ Hct).
Qed.

Lemma station_info_result_sound_witness :
  exists response raw text m ok,
    sample_urlopen json_content_type (iheart_url 1165) request_body
    = Ok response
    /\ getheader response "Content-Type"
       = Some "application/json; charset=utf-8"
    /\ read response = Ok raw
    /\ sample_decode_utf8 raw = Ok text
    /\ sample_json_loads record_one_ok text = Ok (JObj record_one_ok)
    /\ JObj record_one_ok = JObj m
    /\ m !! "ok" = Some ok
    /\ truthy ok = true.
Proof.
  apply (station_info_result_sound (sample_urlopen json_content_type)
           sample_decode_utf8 (sample_json_loads record_one_ok) 1165
           [EUrlopen (iheart_url 1165) request_body;
            EGetHeader "Content-Type"; ERead]
           (JObj record_one_ok)).
  vm_compute. reflexivity.
Defined.

(** X13. In every run [station_info] opens exactly one URL, the request
    URL with the one-byte body, and never retries; it prints nothing; it
    reads the body at most once, and only from a response whose content
    type is [application/json; charset=utf-8]. *)
Theorem station_info_trace_shape
    (urlopen : string -> list byte -> result HTTPResponse)
    (decode_utf8 : list byte -> result string)
    (json_loads : string -> result json) (station_id : Z) :
  let t := fst (station_info urlopen decode_utf8 json_loads station_id) in
  (t = [EUrlopen (iheart_url station_id) request_body]
   \/ t = [EUrlopen (iheart_url station_id) request_body;
           EGetHeader "Content-Type"]
   \/ t = [EUrlopen (iheart_url station_id) request_body;
           EGetHeader "Content-Type"; ERead])
  /\ printed t = []
  /\ (In ERead t ->
      exists response,
        urlopen (iheart_url station_id) request_body = Ok response
        /\ getheader response "Content-Type"
           = Some "application/json; charset=utf-8").
Proof.
  intros t. subst t.
  destruct (station_info_cases urlopen decode_utf8 json_loads station_id)
    as [(e & _ & H)|[(r & _ & _ & H)|(r & Hopen & Hct & Hrest)]].
  - rewrite H. split; [left; reflexivity|]. split; [reflexivity|].
    simpl. intros [Hin|[]]. discriminate Hin.
  - rewrite H. split; [right; left; reflexivity|]. split; [reflexivity|].
    simpl. intros [Hin|[Hin|[]]]; discriminate Hin.
  - assert (Ht : fst (station_info urlopen decode_utf8 json_loads station_id)
                 = lookup_events station_id).
    { destruct Hrest
        as [(e & _ & H)|[(raw & e & _ & _ & H)
           |[(raw & text & e & _ & _ & _ & H)
           |(raw & text & s & _ & _ & _ & H)]]];
        rewrite H; reflexivity. }
    rewrite Ht. split; [right; right; reflexivity|]. split; [reflexivity|].
    intros _. exists r. split; [exact Hopen|].
    exact (is_json_content_type_true _ Hct).
Qed.

(** X14. [station_info] tests [ok] by truth value, not by type: on a
    decoded [dict] any truthy [ok] (such as [1]) returns the record, and
    any falsy one (such as [0], [null] or [""]) raises the [RuntimeError]
    that carries the [error] field, whatever JSON value that is. *)
Theorem station_info_ok_truthiness
    (urlopen : string -> list byte -> result HTTPResponse)
    (decode_utf8 : list byte -> result string)
    (json_loads : string -> result json)
    (station_id : Z) (response : HTTPResponse) (raw : list byte)
    (text : string) (m : gmap string json) (ok : json) :
  urlopen (iheart_url station_id) request_body = Ok response ->
  getheader response "Content-Type" = Some json_content_type ->
  read response = Ok raw ->
  decode_utf8 raw = Ok text ->
  json_loads text = Ok (JObj m) ->
  m !! "ok" = Some ok ->
  (truthy ok = true ->
   station_info urlopen decode_utf8 json_loads station_id
   = (lookup_events station_id, Ok (JObj m)))
  /\ (truthy ok = false ->
      forall msg, m !! "error" = Some msg ->
      station_info urlopen decode_utf8 json_loads station_id
      = (lookup_events station_id, Raise (RuntimeError msg))).
Proof.
  intros Hopen Hct Hread Hdec Hjson Hok.
  rewrite (station_info_decoded _ _ _ _ _ _ _ _ Hopen Hct Hread Hdec Hjson).
  rewrite (getitem_present _ _ _ Hok). split.
  - intros Hv. rewrite bind_ret_l, Hv. reflexivity.
  - intros Hv msg Herr.
    rewrite bind_ret_l, Hv, (getitem_present _ _ _ Herr). reflexivity.
Qed.

Lemma station_info_ok_truthiness_witness :
  station_info (sample_urlopen json_content_type) sample_decode_utf8
    (sample_json_loads record_one_ok) 1165
  = (lookup_events 1165, Ok (JObj record_one_ok))
  /\ station_info (sample_urlopen json_content_type) sample_decode_utf8
       (sample_json_loads record_zero_ok) 1165
     = (lookup_events 1165, Raise (RuntimeError (JStr "bad id"))).
Proof.
  split.
  - apply (station_info_ok_truthiness (sample_urlopen json_content_type)
             sample_decode_utf8 (sample_json_loads record_one_ok) 1165
             (sample_response json_content_type) [x7b; x7d] "{}"
             record_one_ok (JInt 1));
      try reflexivity; vm_compute; reflexivity.
  - apply (station_info_ok_truthiness (sample_urlopen json_content_type)
             sample_decode_utf8 (sample_json_loads record_zero_ok) 1165
             (sample_response json_content_type) [x7b; x7d] "{}"
             record_zero_ok (JInt 0));
      try reflexivity; vm_compute; reflexivity.
Defined.

(** X15. On a body that decodes to something other than a complete
    record, [station_info] fails with a Python lookup error instead of a
    station error: [TypeError] when the value is not a [dict], [KeyError]
    on ["ok"] when that field is missing, and [KeyError] on ["error"] when
    [ok] is falsy and there is no [error] field. *)
Theorem station_info_malformed_record
    (urlopen : string -> list byte -> result HTTPResponse)
    (decode_utf8 : list byte -> result string)
    (json_loads : string -> result json)
    (station_id : Z) (response : HTTPResponse) (raw : list byte)
    (text : string) (station : json) :
  urlopen (iheart_url station_id) request_body = Ok response ->
  getheader response "Content-Type" = Some json_content_type ->
  read response = Ok raw ->
  decode_utf8 raw = Ok text ->
  json_loads text = Ok station ->
  (not_a_dict station ->
   station_info urlopen decode_utf8 json_loads station_id
   = (lookup_events station_id, Raise TypeError))
  /\ (forall m, station = JObj m -> m !! "ok" = None ->
      station_info urlopen decode_utf8 json_loads station_id
      = (lookup_events station_id, Raise (KeyError "ok")))
  /\ (forall m ok, station = JObj m -> m !! "ok" = Some ok ->
      truthy ok = false -> m !! "error" = None ->
      station_info urlopen decode_utf8 json_loads station_id
      = (lookup_events station_id, Raise (KeyError "error"))).
Proof.
  intros Hopen Hct Hread Hdec Hjson.
  rewrite (station_info_decoded _ _ _ _ _ _ _ _ Hopen Hct Hread Hdec Hjson).
  split; [|split].
  - intros Hnd. rewrite (getitem_not_dict _ _ Hnd). reflexivity.
  - intros m -> Hok. rewrite (getitem_absent _ _ Hok). reflexivity.
  - intros m ok -> Hok Hv Herr.
    rewrite (getitem_present _ _ _ Hok), bind_ret_l, Hv.
    rewrite (getitem_absent _ _ Herr). reflexivity.
Qed.

Lemma station_info_malformed_record_witness :
  station_info (sample_urlopen json_content_type) sample_decode_utf8
    (sample_json_loads_value (JArr [])) 1165
  = (lookup_events 1165, Raise TypeError)
  /\ station_info (sample_urlopen json_content_type) sample_decode_utf8
       (sample_json_loads record_no_ok) 1165
     = (lookup_events 1165, Raise (KeyError "ok")).
Proof.
  split.
  - apply (station_info_malformed_record (sample_urlopen json_content_type)
             sample_decode_utf8 (sample_json_loads_value (JArr [])) 1165
             (sample_response json_content_type) [x7b; x7d] "{}" (JArr []));
      try reflexivity.
    intros m H. discriminate H.
  - apply (station_info_malformed_record (sample_urlopen json_content_type)
             sample_decode_utf8 (sample_json_loads record_no_ok) 1165
             (sample_response json_content_type) [x7b; x7d] "{}"
             (JObj record_no_ok)) with (m := record_no_ok);
      try reflexivity.
Defined.

(** X16. [station_info] catches nothing: an exception raised by
    [urlopen], by [read], by the UTF-8 decoding or by [json.loads] leaves
    the function as it is, and no later call is made. *)
Theorem station_info_library_errors
    (urlopen : string -> list byte -> result HTTPResponse)
    (decode_utf8 : list byte -> result string)
    (json_loads : string -> result json)
    (station_id : Z) (e : exn) :
  (urlopen (iheart_url station_id) request_body = Raise e ->
   station_info urlopen decode_utf8 json_loads station_id
   = ([EUrlopen (iheart_url station_id) request_body], Raise e))
  /\ (forall response,
        urlopen (iheart_url station_id) request_body = Ok response ->
        getheader response "Content-Type" = Some json_content_type ->
        (read response = Raise e ->
         station_info urlopen decode_utf8 json_loads station_id
         = (lookup_events station_id, Raise e))
        /\ (forall raw,
              read response = Ok raw -> decode_utf8 raw = Raise e ->
              station_info urlopen decode_utf8 json_loads station_id
              = (lookup_events station_id, Raise e))
        /\ (forall raw text,
              read response = Ok raw -> decode_utf8 raw = Ok text ->
              json_loads text = Raise e ->
              station_info urlopen decode_utf8 json_loads station_id
              = (lookup_events station_id, Raise e))).
Proof.
  split.
  - intros Hopen. unfold station_info. rewrite Hopen. reflexivity.
  - intros response Hopen Hct.
    unfold station_info. split; [|split].
    + intros Hread. rewrite Hopen, bind_lift_ok, Hct.
      unfold is_json_content_type. rewrite String.eqb_refl, bind_ret_l.
      rewrite Hread. reflexivity.
    + intros raw Hread Hdec. rewrite Hopen, bind_lift_ok, Hct.
      unfold is_json_content_type. rewrite String.eqb_refl, bind_ret_l.
      rewrite Hread, bind_lift_ok, Hdec. reflexivity.
    + intros raw text Hread Hdec Hjson. rewrite Hopen, bind_lift_ok, Hct.
      unfold is_json_content_type. rewrite String.eqb_refl, bind_ret_l.
      rewrite Hread, bind_lift_ok, Hdec, bind_lift_ok, Hjson. reflexivity.
Qed.

Lemma station_info_library_errors_witness :
  station_info refusing_urlopen sample_decode_utf8
    (sample_json_loads record_one_ok) 1165
  = ([EUrlopen (iheart_url 1165) request_body],
     Raise (LibraryError "URLError")).
Proof.
  apply (station_info_library_errors refusing_urlopen sample_decode_utf8
           (sample_json_loads record_one_ok) 1165 (LibraryError "URLError")).
  reflexivity.
Defined.

(** ** The request URL: further properties *)

Lemma append_inj_l (s x y : string) : s +:+ x = s +:+ y -> x = y.
Proof.
  induction s as [|a s IH]; simpl; intros H; [exact H|].
  injection H as H. exact (IH H).
Qed.

(** [int(str(n)) == n]: the decimal text determines the integer. *)
Lemma str_inj (a b : Z) : Str.str a = Str.str b -> a = b.
Proof.
  unfold Str.str. intros H. apply DecimalZ.to_int_inj.
  destruct (to_int_not_nil a) as [Ha1 Ha2].
  destruct (to_int_not_nil b) as [Hb1 Hb2].
  pose proof (NilZero.isi _ Ha1 Ha2) as Ia.
  pose proof (NilZero.isi _ Hb1 Hb2) as Ib.
  rewrite H in Ia. rewrite Ia in Ib. injection Ib as Ib. exact Ib.
Qed.

(** X17. Distinct station identifiers are never sent to the same URL:
    the request URL determines the identifier. *)
Theorem iheart_url_injective (a b : Z) :
  iheart_url a = iheart_url b -> a = b.
Proof.
  rewrite !UrlFacts.iheart_url_eq. intros H.
  apply append_inj_l in H. apply str_inj.
  assert (Hsplit : forall n,
            Str.split "/" (Str.str n +:+ "/" +:+ iheart_url_postfix)
            = Str.str n :: Str.split "/" iheart_url_postfix).
  { intros n. apply UrlFacts.split_append.
    apply UrlFacts.text_absent; [|simpl; tauto].
    exact (proj1 (UrlFacts.str_int_text n)). }
  pose proof (Hsplit a) as Ha. rewrite H, Hsplit in Ha.
  injection Ha as Ha. symmetry. exact Ha.
Qed.

Lemma iheart_url_injective_witness : (1165 = 1165)%Z.
Proof.
  apply (iheart_url_injective 1165%Z 1165%Z). reflexivity.
Defined.
